(** * Liquid Pressure Chess: clock, pressure state and move selector

    A shallow embedding of [liquid_pressure_chess.py].

    Conventions of the embedding.
    - Python floats (and the ints they are mixed with) are exact rationals
      [Q]: rounding error is not modelled, comparisons and the order of the
      arithmetic operations are those of the source. A literal that a draw
      of [random.random()] is compared with is the float it denotes where
      that changes the test ([Py.float_0_7]).
    - [datetime.now()] is a reading, in seconds, taken from the outside
      world; [total_seconds()] of a difference is the difference of two
      readings.
    - The [random] module is a source of raw words, consumed one per call.
    - A raised Python exception is the result [None] of the [Rand] monad
      (or [Crashed] in the game loop).
    - The rules library (python-chess) and the engine process (Stockfish)
      are interfaces: the classes [ChessRules] and [Engine]. *)

From Stdlib Require Import QArith Qminmax ZArith NArith List Ascii String Bool Lia Lqa.
Import ListNotations.
Open Scope Q_scope.

(** ** Python built-ins on numbers *)

Module Py.

Definition ltb (a b : Q) : bool := negb (Qle_bool b a).
Definition leb (a b : Q) : bool := Qle_bool a b.

(** [max(a, b)]: the first argument unless the second is strictly greater. *)
Definition max (a b : Q) : Q := if ltb a b then b else a.

(** [min(a, b)]: the first argument unless the second is strictly smaller. *)
Definition min (a b : Q) : Q := if ltb b a then b else a.

(** [seq[i:j]] for [0 <= i <= j]. *)
Definition slice {A : Type} (i j : nat) (l : list A) : list A :=
  firstn (j - i) (skipn i l).

(** The float that the literal [0.7] denotes, 6305039478318694 / 2^53. It
    lies below 7/10, and one value of [random.random()], this one, lies
    between the two: a draw is compared with the float. (The floats of
    [0.8] and [0.2] lie above 8/10 and 2/10 with no value of
    [random.random()] in between, so those tests read the same either
    way.) *)
Definition float_0_7 : Q := 6305039478318694 # 9007199254740992.

End Py.

Infix "<?" := Py.ltb (at level 70, no associativity) : Q_scope.
Infix "<=?" := Py.leb (at level 70, no associativity) : Q_scope.

(** ** The random source *)

(** Raw words of the generator, in the order they are drawn. *)
Definition Rng : Type := nat -> N.

(** Computations that draw from the random source and may raise. *)
Definition Rand (A : Type) : Type := Rng -> option (A * Rng).

Definition ret {A : Type} (a : A) : Rand A := fun g => Some (a, g).

Definition bind {A B : Type} (m : Rand A) (k : A -> Rand B) : Rand B :=
  fun g => match m g with
           | Some (a, g') => k a g'
           | None => None
           end.

Definition raise {A : Type} : Rand A := fun _ => None.

Notation "x <- m ;; k" := (bind m (fun x => k))
  (at level 61, m at next level, right associativity).

Definition draw : Rand N := fun g => Some (g O, fun k => g (S k)).

Module random.

(** [random.random()]: 53 random bits over [2^53], a float in [[0, 1)]. *)
Definition random : Rand Q :=
  w <- draw ;;
  ret (Z.of_N (w mod 2 ^ 53) # 2 ^ 53).

(** [random.uniform(a, b)] is [a + (b - a) * random()]. *)
Definition uniform (a b : Q) : Rand Q :=
  u <- random ;;
  ret (a + (b - a) * u).

(** [_randbelow(n)] for [n > 0]: some integer below [n]. *)
Definition randbelow (n : N) : Rand N :=
  w <- draw ;;
  ret (w mod n)%N.

(** [random.randint(a, b)] is [a + _randbelow(b - a + 1)]. *)
Definition randint (a b : Z) : Rand Z :=
  k <- randbelow (Z.to_N (b - a + 1)) ;;
  ret (a + Z.of_N k)%Z.

(** [random.choice(seq)]: [IndexError] on an empty sequence. *)
Definition choice {A : Type} (seq : list A) : Rand A :=
  match seq with
  | [] => raise
  | _ :: _ =>
      k <- randbelow (N.of_nat (List.length seq)) ;;
      match nth_error seq (N.to_nat k) with
      | Some x => ret x
      | None => raise
      end
  end.

(** [itertools.accumulate(weights)], from the running total [acc]. *)
Fixpoint accumulate (acc : Q) (weights : list Q) : list Q :=
  match weights with
  | [] => []
  | w :: rest => (acc + w) :: accumulate (acc + w) rest
  end.

(** [bisect.bisect_right(a, x, lo, hi)]; [fuel] bounds the halvings. *)
Fixpoint bisect (fuel : nat) (a : list Q) (x : Q) (lo hi : nat) : nat :=
  match fuel with
  | O => lo
  | S fuel' =>
      if (lo <? hi)%nat then
        let mid := ((lo + hi) / 2)%nat in
        if x <? nth mid a 0 then bisect fuel' a x lo mid
        else bisect fuel' a x (S mid) hi
      else lo
  end.

(** [random.choices(population, weights=weights, k=1)[0]]: [ValueError]
    when the lengths differ or the total weight is not positive. *)
Definition choices1 {A : Type} (population : list A) (weights : list Q)
  : Rand A :=
  let n := List.length population in
  let cum_weights := accumulate 0 weights in
  if negb (List.length cum_weights =? n)%nat then raise
  else
    match nth_error cum_weights (n - 1) with
    | None => raise
    | Some total =>
        if total <=? 0 then raise
        else
          u <- random ;;
          match nth_error population (bisect n cum_weights (u * total) 0 (n - 1)) with
          | Some x => ret x
          | None => raise
          end
    end.

End random.

(** ** Game clock *)

Definition GAME_DURATION : Q := 10 * 60.

Record Clock : Type := {
  engine_time_remaining : Q;
  opponent_time_remaining : Q;
  last_move_time : Q
}.

Definition initial_clock (now : Q) : Clock :=
  {| engine_time_remaining := GAME_DURATION;
     opponent_time_remaining := GAME_DURATION;
     last_move_time := now |}.

(** [update_clock(is_engine_move)], with the reading [current_time] of
    [datetime.now()]; returns [elapsed] and the new clock. *)
Definition update_clock (is_engine_move : bool) (current_time : Q) (c : Clock)
  : Q * Clock :=
  let elapsed := current_time - last_move_time c in
  if is_engine_move then
    (elapsed,
     {| engine_time_remaining := engine_time_remaining c;
        opponent_time_remaining := opponent_time_remaining c - elapsed;
        last_move_time := current_time |})
  else
    (elapsed,
     {| engine_time_remaining := engine_time_remaining c - elapsed;
        opponent_time_remaining := opponent_time_remaining c;
        last_move_time := current_time |}).

(** [get_time_pressure(time_remaining, move_number)]. *)
Definition get_time_pressure (time_remaining : Q) (move_number : Z) : Q :=
  let expected_moves := 40%Z in
  let time_per_move := GAME_DURATION / inject_Z expected_moves in
  let moves_remaining := (expected_moves - move_number)%Z in
  if (moves_remaining <=? 0)%Z then 1.0
  else
    let available_time := time_remaining / inject_Z moves_remaining in
    let pressure := Py.max 0 (1.0 - available_time / time_per_move) in
    Py.min 1.0 pressure.

(** ** External collaborators *)

(** The part of python-chess the program calls. *)
Module chess.

(** Squares are numbered a1 = 0, b1 = 1, ..., h8 = 63. *)
Definition Square : Type := Z.
Definition D4 : Square := 27%Z.
Definition E4 : Square := 28%Z.
Definition D5 : Square := 35%Z.
Definition E5 : Square := 36%Z.

Inductive PieceType : Type := PAWN | KNIGHT | BISHOP | ROOK | QUEEN | KING.

Definition PieceType_eqb (a b : PieceType) : bool :=
  match a, b with
  | PAWN, PAWN | KNIGHT, KNIGHT | BISHOP, BISHOP
  | ROOK, ROOK | QUEEN, QUEEN | KING, KING => true
  | _, _ => false
  end.

Record Piece : Type := { piece_type : PieceType; color : bool }.

Record Move : Type := {
  from_square : Square;
  to_square : Square;
  promotion : option PieceType
}.

Definition Move_eqb (a b : Move) : bool :=
  (from_square a =? from_square b)%Z && (to_square a =? to_square b)%Z &&
  match promotion a, promotion b with
  | Some p, Some q => PieceType_eqb p q
  | None, None => true
  | _, _ => false
  end.

(** [chess.Board] and [chess.Move.from_uci] ([None]: [ValueError]).
    [legal_moves] is what iterating [board.legal_moves] yields; the test
    [move in board.legal_moves] is answered by the library's own
    [is_legal], which need not be membership in that list (it takes a
    castling move written as king to rook square as well). *)
Class Rules (Board : Type) : Type := {
  from_uci : string -> option Move;
  square_distance : Square -> Square -> Z;
  fullmove_number : Board -> Z;
  turn : Board -> bool;
  legal_moves : Board -> list Move;
  is_legal : Board -> Move -> bool;
  piece_map : Board -> list (Square * Piece);
  piece_at : Board -> Square -> option Piece;
  king : Board -> bool -> option Square;
  is_check : Board -> bool;
  is_capture : Board -> Move -> bool;
  is_game_over : Board -> bool;
  is_checkmate : Board -> bool;
  is_stalemate : Board -> bool;
  is_insufficient_material : Board -> bool;
  is_fifty_moves : Board -> bool;
  push_uci : Board -> string -> option Board
}.

End chess.

(** One entry of [Stockfish.get_top_moves]; the program reads ['Move'] only. *)
Record MoveInfo : Type := {
  Move : string;
  Centipawn : option Z;
  Mate : option Z
}.

(** The part of the Stockfish wrapper the program calls. *)
Class Engine (Stockfish : Type) : Type := {
  set_skill_level : Stockfish -> Z -> Stockfish;
  get_top_moves : Stockfish -> nat -> list MoveInfo;
  make_moves_from_current_position : Stockfish -> list string -> Stockfish
}.

(** ** Liquid pressure style parameters *)

Inductive Phase : Type := calm_flow | building_waves | crushing_tide.

Record Style : Type := {
  pressure : Q;
  flow_momentum : Q;
  time_awareness : string;
  phase : Phase
}.

Definition LIQUID_STYLE : Style :=
  {| pressure := 0.0;
     flow_momentum := 0.0;
     time_awareness := "balanced";
     phase := calm_flow |}.

(** [seq[i]] for [i >= 0]: [IndexError] when out of range. *)
Definition getitem {A : Type} (seq : list A) (i : nat) : Rand A :=
  match nth_error seq i with
  | Some x => ret x
  | None => raise
  end.

(** An exception of a computation that draws nothing. *)
Definition lift {A : Type} (o : option A) : Rand A :=
  match o with
  | Some a => ret a
  | None => raise
  end.

Section Program.

Context {Board : Type} `{chess.Rules Board}.
Context {Stockfish : Type} `{Engine Stockfish}.

(** *** Time management *)

(** [adaptive_thinking_time(board, time_remaining, pressure)]. *)
Definition adaptive_thinking_time (board : Board) (time_remaining pressure : Q)
  : Rand Q :=
  let move_number := chess.fullmove_number board in
  let time_pressure := get_time_pressure time_remaining move_number in
  base_time <- (if pressure <? 0.3 then random.uniform 2.0 4.0
                else if pressure <? 0.7 then random.uniform 3.0 6.0
                else random.uniform 1.5 3.5) ;;
  let base_time :=
    if 0.5 <? time_pressure then base_time * (1.0 - time_pressure * 0.6)
    else base_time in
  base_time <- (if time_remaining <? 60 then random.uniform 0.5 2.0
                else if time_remaining <? 180 then random.uniform 1.0 3.0
                else ret base_time) ;;
  let base_time := Py.max 0.3 base_time in
  let max_reasonable := time_remaining * 0.1 in
  let base_time := Py.min base_time max_reasonable in
  ret base_time.

(** *** Liquid pressure core logic *)

(** The phase update that ends [update_liquid_momentum]. *)
Definition phase_of (pressure : Q) : Phase :=
  if pressure <? 0.4 then calm_flow
  else if pressure <? 0.8 then building_waves
  else crushing_tide.

(** [update_liquid_momentum(board, move_uci, time_used)] on the global
    [LIQUID_STYLE], here the argument [style]. *)
Definition update_liquid_momentum (board : Board) (move_uci : string)
  (time_used : Q) (style : Style) : Style :=
  let flow_momentum' := Py.min 1.0 (flow_momentum style + 0.06) in
  let position_complexity :=
    inject_Z (Z.of_nat (List.length (chess.legal_moves board))) / 20.0 in
  let time_efficiency := Py.min 1.0 (time_used / 5.0) in
  let pressure' :=
    flow_momentum' * 0.6 + position_complexity * 0.3 + time_efficiency * 0.1 in
  {| pressure := pressure';
     flow_momentum := flow_momentum';
     time_awareness := time_awareness style;
     phase := phase_of pressure' |}.

(** [get_positional_tension(board)]. *)
Definition get_positional_tension (board : Board) : Q :=
  let tension := 0.0 in
  let piece_count := List.length (chess.piece_map board) in
  let tension := tension + (inject_Z (Z.of_nat piece_count) / 32.0) * 0.3 in
  let tension := if chess.is_check board then tension + 0.2 else tension in
  let tension :=
    if existsb (chess.is_capture board) (chess.legal_moves board)
    then tension + 0.2 else tension in
  let move_count := List.length (chess.legal_moves board) in
  let tension :=
    tension + Py.min 0.3 (inject_Z (Z.of_nat move_count) / 50.0) in
  Py.min 1.0 tension.

(** *** Liquid style move selection *)

(** [blitz_mode_moves(top_moves)]. *)
Definition blitz_mode_moves (top_moves : list MoveInfo) : Rand string :=
  u <- random.random ;;
  if u <? 0.8 then
    move_info <- getitem top_moves 0 ;; ret (Move move_info)
  else if (1 <? List.length top_moves)%nat then
    move_info <- getitem top_moves 1 ;; ret (Move move_info)
  else
    move_info <- getitem top_moves 0 ;; ret (Move move_info).

(** [is_calm_move(board, move_uci)], as a truth value; [None] when
    [chess.Move.from_uci] raises. *)
Definition is_calm_move (board : Board) (move_uci : string) : option bool :=
  match chess.from_uci move_uci with
  | None => None
  | Some move =>
      if chess.is_check board || chess.is_capture board move then Some false
      else
        match chess.piece_at board (chess.from_square move) with
        | None => Some false
        | Some piece =>
            Some (existsb (chess.PieceType_eqb (chess.piece_type piece))
                    [chess.PAWN; chess.KNIGHT; chess.BISHOP])
        end
  end.

(** The loop of [calm_flow_moves] that collects [solid_moves]. *)
Fixpoint solid_moves (board : Board) (top_moves : list MoveInfo)
  : option (list MoveInfo) :=
  match top_moves with
  | [] => Some []
  | move_info :: rest =>
      match is_calm_move board (Move move_info) with
      | None => None
      | Some calm =>
          match solid_moves board rest with
          | None => None
          | Some solid => Some (if calm then move_info :: solid else solid)
          end
      end
  end.

(** [calm_flow_moves(board, top_moves, time_pressure)]. The test
    [solid_moves and random.random() < 0.7] draws only when [solid_moves]
    is not empty, and compares the draw with the float of [0.7]. *)
Definition calm_flow_moves (board : Board) (top_moves : list MoveInfo)
  (time_pressure : Q) : Rand string :=
  solid <- lift (solid_moves board top_moves) ;;
  prefer_solid <- match solid with
                  | [] => ret false
                  | _ :: _ => u <- random.random ;; ret (u <? Py.float_0_7)
                  end ;;
  chosen <- (if prefer_solid : bool then random.choice (firstn 3 solid)
             else
               v <- random.random ;;
               if v <? Py.max 0.2 (time_pressure * 0.3) then
                 if (3 <? List.length top_moves)%nat
                 then random.choice (Py.slice 1 4 top_moves)
                 else getitem top_moves 0
               else getitem top_moves 0) ;;
  ret (Move chosen).

(** [attacks_important_square(board, move)]. The test [opponent_king and ...]
    is false for [None] and for square 0. *)
Definition attacks_important_square (board : Board) (move : chess.Move) : bool :=
  let target := chess.to_square move in
  if existsb (Z.eqb target) [chess.E4; chess.E5; chess.D4; chess.D5] then true
  else
    match chess.king board (negb (chess.turn board)) with
    | Some opponent_king =>
        negb (opponent_king =? 0)%Z &&
        (chess.square_distance target opponent_king <=? 2)%Z
    | None => false
    end.

(** [calculate_pressure_weight(board, move_uci, rank)]. *)
Definition calculate_pressure_weight (board : Board) (move_uci : string)
  (rank : nat) : option Q :=
  let base_weight := 1.0 / inject_Z (Z.of_nat rank + 1) in
  match chess.from_uci move_uci with
  | None => None
  | Some move =>
      let base_weight :=
        if chess.is_check board then base_weight * 1.3 else base_weight in
      let base_weight :=
        if chess.is_capture board move then base_weight * 1.2 else base_weight in
      let base_weight :=
        if attacks_important_square board move then base_weight * 1.25
        else base_weight in
      Some base_weight
  end.

(** The loop of [building_waves_moves] over [enumerate(top_moves)],
    from index [i]. *)
Fixpoint weighted_moves (board : Board) (i : nat) (top_moves : list MoveInfo)
  (time_pressure : Q) : option (list (MoveInfo * Q)) :=
  match top_moves with
  | [] => Some []
  | move_info :: rest =>
      match calculate_pressure_weight board (Move move_info) i with
      | None => None
      | Some weight =>
          let weight := weight * (1.0 - time_pressure * 0.2) in
          match weighted_moves board (S i) rest time_pressure with
          | None => None
          | Some l => Some ((move_info, weight) :: l)
          end
      end
  end.

(** [building_waves_moves(board, top_moves, time_pressure)]; unpacking
    the zipped [weighted_moves] raises on an empty list. *)
Definition building_waves_moves (board : Board) (top_moves : list MoveInfo)
  (time_pressure : Q) : Rand string :=
  weighted <- lift (weighted_moves board 0 top_moves time_pressure) ;;
  match weighted with
  | [] => raise
  | _ :: _ =>
      let moves := map fst weighted in
      let weights := map snd weighted in
      chosen_info <- random.choices1 moves weights ;;
      ret (Move chosen_info)
  end.

(** [crushing_tide_moves(board, top_moves, time_pressure)]. *)
Definition crushing_tide_moves (board : Board) (top_moves : list MoveInfo)
  (time_pressure : Q) : Rand string :=
  u <- random.random ;;
  if u <? 0.8 - time_pressure * 0.3 then
    move_info <- getitem top_moves 0 ;; ret (Move move_info)
  else if (2 <? List.length top_moves)%nat then
    move_info <- random.choice (Py.slice 1 3 top_moves) ;; ret (Move move_info)
  else
    move_info <- getitem top_moves 0 ;; ret (Move move_info).

(** The block "Time-aware move selection" that ends
    [liquid_style_move_selection], reached with a non-empty [top_moves]. *)
Definition time_aware_selection (board : Board) (top_moves : list MoveInfo)
  (time_remaining time_pressure : Q) (style : Style) : Rand string :=
  if time_remaining <? 30 then blitz_mode_moves top_moves
  else
    match phase style with
    | calm_flow => calm_flow_moves board top_moves time_pressure
    | building_waves => building_waves_moves board top_moves time_pressure
    | crushing_tide => crushing_tide_moves board top_moves time_pressure
    end.

(** [liquid_style_move_selection(board, sf, time_remaining)], reading the
    global [LIQUID_STYLE]; returns the move ([None] without candidates)
    and the engine with its new skill level. *)
Definition liquid_style_move_selection (board : Board) (sf : Stockfish)
  (time_remaining : Q) (style : Style) : Rand (option string * Stockfish) :=
  let time_pressure :=
    get_time_pressure time_remaining (chess.fullmove_number board) in
  let position_tension := get_positional_tension board in
  skill <- (if 0.7 <? time_pressure then random.randint 16 18
            else random.randint 18 20) ;;
  let sf := set_skill_level sf skill in
  let top_n :=
    if 0.8 <? time_pressure then 3%nat
    else if 0.7 <? position_tension then 6%nat
    else 4%nat in
  let top_moves := get_top_moves sf top_n in
  match top_moves with
  | [] => ret (None, sf)
  | _ :: _ =>
      move <- time_aware_selection board top_moves time_remaining
                time_pressure style ;;
      ret (Some move, sf)
  end.

End Program.

(** ** The game *)

(** What the process reads from outside: the random source, the successive
    readings of [datetime.now()] and the lines that [input(...).strip()]
    returns. *)
Record World : Type := {
  rng : Rng;
  now : nat -> Q;
  stdin : list string
}.

Inductive Result (A : Type) : Type :=
| Ok (a : A)
| Exited       (* [exit("Game exited.")] *)
| Crashed      (* an exception nobody catches *)
| OutOfFuel.

Arguments Ok {A} a.
Arguments Exited {A}.
Arguments Crashed {A}.
Arguments OutOfFuel {A}.

Definition IO (A : Type) : Type := World -> Result (A * World).

Definition io_ret {A : Type} (a : A) : IO A := fun w => Ok (a, w).

Definition io_bind {A B : Type} (m : IO A) (k : A -> IO B) : IO B :=
  fun w => match m w with
           | Ok (a, w') => k a w'
           | Exited => Exited
           | Crashed => Crashed
           | OutOfFuel => OutOfFuel
           end.

Notation "x <~ m ;; k" := (io_bind m (fun x => k))
  (at level 61, m at next level, right associativity).

Definition rand {A : Type} (m : Rand A) : IO A :=
  fun w => match m (rng w) with
           | Some (a, g) => Ok (a, {| rng := g; now := now w; stdin := stdin w |})
           | None => Crashed
           end.

Definition datetime_now : IO Q :=
  fun w => Ok (now w O,
               {| rng := rng w; now := fun k => now w (S k); stdin := stdin w |}).

(** [time.sleep(secs)]: [ValueError] on a negative length. *)
Definition sleep (secs : Q) : IO unit :=
  fun w => if secs <? 0 then Crashed else Ok (tt, w).

(** [str.lower] on ASCII letters. *)
Definition lower_ascii (c : ascii) : ascii :=
  let n := nat_of_ascii c in
  if ((65 <=? n) && (n <=? 90))%nat then ascii_of_nat (n + 32) else c.

Fixpoint lower (s : string) : string :=
  match s with
  | EmptyString => EmptyString
  | String c rest => String (lower_ascii c) (lower rest)
  end.

Inductive Message : Type :=
| RanOutOfTime            (* "Liquid Pressure ran out of time!" *)
| OpponentRanOutOfTime    (* "Opponent ran out of time! Liquid Pressure wins!" *)
| CrushingTideCheckmate   (* "CRUSHING TIDE! Liquid Pressure overwhelms completely!" *)
| FlowingCheckmate        (* "Flowing checkmate! Water finds its path." *)
| StillWaters             (* "Still waters - stalemate." *)
| Evaporated              (* "Evaporated to draw - insufficient material." *)
| FlowStagnated           (* "Flow stagnated - fifty move rule." *)
| GameEnded.              (* "Game ended." *)

Section Game.

Context {Board : Type} `{chess.Rules Board}.
Context {Stockfish : Type} `{Engine Stockfish}.

(** The module's global variables. *)
Record Game : Type := {
  board : Board;
  sf : Stockfish;
  clock : Clock;
  style : Style
}.

Definition with_clock (g : Game) (c : Clock) : Game :=
  {| board := board g; sf := sf g; clock := c; style := style g |}.

Definition with_style (g : Game) (s : Style) : Game :=
  {| board := board g; sf := sf g; clock := clock g; style := s |}.

Definition with_sf (g : Game) (e : Stockfish) : Game :=
  {| board := board g; sf := e; clock := clock g; style := style g |}.

(** [make_move(move_uci)]; [None] when [board.push_uci] raises. *)
Definition make_move (move_uci : string) (g : Game) : option Game :=
  match chess.push_uci (board g) move_uci with
  | None => None
  | Some b =>
      Some {| board := b;
              sf := make_moves_from_current_position (sf g) [move_uci];
              clock := clock g;
              style := style g |}
  end.

(** The loop guard of both colour branches. *)
Definition loop_condition (g : Game) : bool :=
  negb (chess.is_game_over (board g)) &&
  (0 <? engine_time_remaining (clock g)) &&
  (0 <? opponent_time_remaining (clock g)).

(** The block "Liquid Pressure move" (the same text in both branches);
    the flag is [false] when the block ends in [break]. *)
Definition engine_turn (g : Game) : IO (bool * Game) :=
  r <~ rand (liquid_style_move_selection (board g) (sf g)
               (engine_time_remaining (clock g)) (style g)) ;;
  let g := with_sf g (snd r) in
  match fst r with
  | None => io_ret (false, g)
  | Some best_move =>
      if (best_move =? "")%string then io_ret (false, g)
      else
        thinking_time <~ rand (adaptive_thinking_time (board g)
                                 (engine_time_remaining (clock g))
                                 (pressure (style g))) ;;
        _ <~ sleep thinking_time ;;
        current_time <~ datetime_now ;;
        let g := with_clock g (snd (update_clock true current_time (clock g))) in
        match make_move best_move g with
        | None => fun _ => Crashed
        | Some g =>
            io_ret (true,
                    with_style g (update_liquid_momentum (board g) best_move
                                    thinking_time (style g)))
        end
  end.

(** The block "Opponent move" (the same text in both branches), on the
    lines still to read: it ends when a line is a legal move. *)
Fixpoint opponent_turn (lines : list string) (now : nat -> Q) (g : Game)
  : Result (Game * (list string * (nat -> Q))) :=
  match lines with
  | [] => Crashed
  | opp_move :: lines =>
      if (lower opp_move =? "quit")%string then Exited
      else
        match chess.from_uci opp_move with
        | None => opponent_turn lines now g
        | Some move_obj =>
            if chess.is_legal (board g) move_obj
            then
              let current_time := now O in
              let now := fun k => now (S k) in
              let g :=
                with_clock g (snd (update_clock false current_time (clock g))) in
              match make_move opp_move g with
              | None => opponent_turn lines now g
              | Some g =>
                  Ok (with_style g (update_liquid_momentum (board g) opp_move 0
                                      (style g)),
                      (lines, now))
              end
            else opponent_turn lines now g
        end
  end.

Definition opponent_move (g : Game) : IO Game :=
  fun w => match opponent_turn (stdin w) (now w) g with
           | Ok (g', (lines, now')) =>
               Ok (g', {| rng := rng w; now := now'; stdin := lines |})
           | Exited => Exited
           | Crashed => Crashed
           | OutOfFuel => OutOfFuel
           end.

(** The loop of the branch [player_is_white]. *)
Fixpoint white_loop (fuel : nat) (g : Game) : IO Game :=
  match fuel with
  | O => fun _ => OutOfFuel
  | S fuel =>
      if loop_condition g then
        r <~ engine_turn g ;;
        let g := snd r in
        if negb (fst r) then io_ret g
        else if chess.is_game_over (board g) ||
                (engine_time_remaining (clock g) <=? 0)
        then io_ret g
        else
          g <~ opponent_move g ;;
          white_loop fuel g
      else io_ret g
  end.

(** The loop of the other branch. *)
Fixpoint black_loop (fuel : nat) (g : Game) : IO Game :=
  match fuel with
  | O => fun _ => OutOfFuel
  | S fuel =>
      if loop_condition g then
        g <~ opponent_move g ;;
        if chess.is_game_over (board g) ||
           (opponent_time_remaining (clock g) <=? 0)
        then io_ret g
        else
          r <~ engine_turn g ;;
          let g := snd r in
          if negb (fst r) then io_ret g
          else black_loop fuel g
      else io_ret g
  end.

(** The message chosen under "Game over". *)
Definition game_over_message (g : Game) : Message :=
  if engine_time_remaining (clock g) <=? 0 then RanOutOfTime
  else if opponent_time_remaining (clock g) <=? 0 then OpponentRanOutOfTime
  else if chess.is_checkmate (board g) then
    if 0.7 <? pressure (style g) then CrushingTideCheckmate
    else FlowingCheckmate
  else if chess.is_stalemate (board g) then StillWaters
  else if chess.is_insufficient_material (board g) then Evaporated
  else if chess.is_fifty_moves (board g) then FlowStagnated
  else GameEnded.

(** The program from the main loop on: the final globals and message. *)
Definition play (player_is_white : bool) (fuel : nat) (g : Game)
  : IO (Game * Message) :=
  g <~ (if player_is_white then white_loop fuel g else black_loop fuel g) ;;
  io_ret (g, game_over_message g).

End Game.

Arguments Game : clear implicits.

(** ** A small instance of the collaborators

    A position that answers every query from a fixed record and an engine
    that answers from a fixed ranked list; used to run the program on
    concrete inputs. *)
Module Fixture.

Record Position : Type := {
  legal : list chess.Move;
  pieces : list (chess.Square * chess.Piece);
  check : bool;
  over : bool;
  mate : bool;
  fullmove : Z
}.

(** A square name such as ["e4"], by file and rank letters. *)
Definition square (f r : ascii) : option chess.Square :=
  let fi := (nat_of_ascii f - 97)%nat in
  let ri := (nat_of_ascii r - 49)%nat in
  if ((97 <=? nat_of_ascii f) && (fi <? 8) &&
      (49 <=? nat_of_ascii r) && (ri <? 8))%nat
  then Some (Z.of_nat (fi + 8 * ri)) else None.

Definition parse (s : string) : option chess.Move :=
  match s with
  | String a (String b (String c (String d EmptyString))) =>
      match square a b, square c d with
      | Some x, Some y =>
          Some {| chess.from_square := x; chess.to_square := y;
                  chess.promotion := None |}
      | _, _ => None
      end
  | _ => None
  end.

Definition capture (p : Position) (m : chess.Move) : bool :=
  existsb (fun sp => (fst sp =? chess.to_square m)%Z) (pieces p).

Definition lookup (p : Position) (sq : chess.Square) : option chess.Piece :=
  match filter (fun sp => (fst sp =? sq)%Z) (pieces p) with
  | [] => None
  | sp :: _ => Some (snd sp)
  end.

#[global] Instance rules : chess.Rules Position := {|
  chess.from_uci := parse;
  chess.square_distance := fun a b =>
    Z.max (Z.abs (a mod 8 - b mod 8)) (Z.abs (a / 8 - b / 8));
  chess.fullmove_number := fullmove;
  chess.turn := fun _ => true;
  chess.legal_moves := legal;
  chess.is_legal := fun p m => existsb (chess.Move_eqb m) (legal p);
  chess.piece_map := pieces;
  chess.piece_at := lookup;
  chess.king := fun _ _ => None;
  chess.is_check := check;
  chess.is_capture := capture;
  chess.is_game_over := over;
  chess.is_checkmate := mate;
  chess.is_stalemate := fun _ => false;
  chess.is_insufficient_material := fun _ => false;
  chess.is_fifty_moves := fun _ => false;
  chess.push_uci := fun p _ => Some p
|}.

#[global] Instance engine : Engine (list MoveInfo) := {|
  set_skill_level := fun sf _ => sf;
  get_top_moves := fun sf n => firstn n sf;
  make_moves_from_current_position := fun sf _ => sf
|}.

Definition info (uci : string) : MoveInfo :=
  {| Move := uci; Centipawn := Some 0%Z; Mate := None |}.

Definition move (a b : Z) : chess.Move :=
  {| chess.from_square := a; chess.to_square := b; chess.promotion := None |}.

(** A quiet middlegame position with [n] legal moves: kings on e1 and e8,
    rooks on a1 and d1, a queen on d8. *)
Definition middlegame (n : nat) : Position :=
  {| legal := map (fun k => move 0 (Z.of_nat k + 1)) (seq 0 n);
     pieces := [(4%Z, {| chess.piece_type := chess.KING; chess.color := true |});
                (0%Z, {| chess.piece_type := chess.ROOK; chess.color := true |});
                (3%Z, {| chess.piece_type := chess.ROOK; chess.color := true |});
                (60%Z, {| chess.piece_type := chess.KING; chess.color := false |});
                (59%Z, {| chess.piece_type := chess.QUEEN; chess.color := false |})];
     check := false;
     over := false;
     mate := false;
     fullmove := 20 |}.

(** The same position, reported as checkmate. *)
Definition checkmated : Position :=
  {| legal := [];
     pieces := pieces (middlegame 0);
     check := true;
     over := true;
     mate := true;
     fullmove := 20 |}.

(** An opening position: the white king, the e2 pawn and the g1 knight
    against the black king. *)
Definition opening : Position :=
  {| legal := [move 12 28; move 6 21; move 4 5];
     pieces := [(4%Z, {| chess.piece_type := chess.KING; chess.color := true |});
                (12%Z, {| chess.piece_type := chess.PAWN; chess.color := true |});
                (6%Z, {| chess.piece_type := chess.KNIGHT; chess.color := true |});
                (60%Z, {| chess.piece_type := chess.KING; chess.color := false |})];
     check := false;
     over := false;
     mate := false;
     fullmove := 1 |}.

Definition opening_candidates : list MoveInfo :=
  [info "e2e4"; info "g1f3"; info "e1f1"].

Definition candidates : list MoveInfo :=
  [info "a1a2"; info "d1d2"; info "e1f1"; info "a1b1"; info "d1d7"].

Definition zeros : Rng := fun _ => 0%N.
Definition top_word : Rng := fun _ => (2 ^ 53 - 1)%N.

Definition game (p : Position) (c : Clock) (s : Style)
  : Game Position (list MoveInfo) :=
  {| board := p; sf := candidates; clock := c; style := s |}.

End Fixture.

(** ** Display *)

From Stdlib Require Import Qround DecimalString.

Module display.

(** [x // d] on floats, for [d > 0]: the floor of the quotient. *)
Definition floordiv (x d : Q) : Q := inject_Z (Qfloor (x / d)).

(** [x % d] on floats, for [d > 0] and [x >= 0], where the float
    remainder is exact: what [x // d] leaves. For a negative [x] the float
    remainder is a rounded sum that can be [d] itself (a counter just
    below 0 gives 60.0); that case is left out, as [None]. *)
Definition modulo (x d : Q) : option Q :=
  if x <? 0 then None else Some (x - d * floordiv x d).

(** [int(x)]: truncation towards zero. *)
Definition int (x : Q) : Z :=
  if x <? 0 then (- Qfloor (- x))%Z else Qfloor x.

(** The format [{n:02d}]: decimal digits, padded with a zero to width 2. *)
Definition format_02d (n : Z) : string :=
  let digits := NilZero.string_of_int (Z.to_int n) in
  if (String.length digits <? 2)%nat then String "0" digits else digits.

(** A three-byte UTF-8 character. *)
Definition utf8 (a b c : nat) : string :=
  String (ascii_of_nat a) (String (ascii_of_nat b)
    (String (ascii_of_nat c) EmptyString)).

(** The alarm clock sign that starts the clock line. *)
Definition alarm_clock : string := utf8 226 143 176.

(** The chess symbols, white king to black pawn, from U+2654 on. *)
Definition chess_symbol (k : nat) : string := utf8 226 153 (148 + k).

(** [piece.symbol()]: the letter of the piece, upper case for White. *)
Definition symbol (p : chess.Piece) : string :=
  match chess.piece_type p, chess.color p with
  | chess.PAWN, true => "P" | chess.PAWN, false => "p"
  | chess.KNIGHT, true => "N" | chess.KNIGHT, false => "n"
  | chess.BISHOP, true => "B" | chess.BISHOP, false => "b"
  | chess.ROOK, true => "R" | chess.ROOK, false => "r"
  | chess.QUEEN, true => "Q" | chess.QUEEN, false => "q"
  | chess.KING, true => "K" | chess.KING, false => "k"
  end.

(** [chess.square(file_index, rank_index)]. *)
Definition square (file_index rank_index : Z) : chess.Square :=
  (rank_index * 8 + file_index)%Z.

(** [dict.get(key, default)] on a dict written as its items. *)
Fixpoint get (d : list (string * string)) (key default : string) : string :=
  match d with
  | [] => default
  | (k, v) :: rest => if (k =? key)%string then v else get rest key default
  end.

(** [range(start, start + n)] and [range(start, start - n, -1)]. *)
Definition range_up (start : Z) (n : nat) : list Z :=
  map (fun k => (start + Z.of_nat k)%Z) (seq 0 n).

Definition range_down (start : Z) (n : nat) : list Z :=
  map (fun k => (start - Z.of_nat k)%Z) (seq 0 n).

End display.

(** The four numbers of [display_time_remaining]: minutes and seconds of
    the engine, minutes and seconds of the opponent; [None] for a negative
    counter (see [display.modulo]). *)
Definition display_time_fields (c : Clock) : option ((Z * Z) * (Z * Z)) :=
  let engine_min := display.int (display.floordiv (engine_time_remaining c) 60) in
  match display.modulo (engine_time_remaining c) 60 with
  | None => None
  | Some engine_rest =>
      let engine_sec := display.int engine_rest in
      let opp_min :=
        display.int (display.floordiv (opponent_time_remaining c) 60) in
      match display.modulo (opponent_time_remaining c) 60 with
      | None => None
      | Some opp_rest =>
          let opp_sec := display.int opp_rest in
          Some ((engine_min, engine_sec), (opp_min, opp_sec))
      end
  end.

(** [display_time_remaining()]: the line it prints. *)
Definition display_time_remaining (c : Clock) : option string :=
  match display_time_fields c with
  | None => None
  | Some ((engine_min, engine_sec), (opp_min, opp_sec)) =>
      Some (display.alarm_clock ++ " Your time: "
            ++ display.format_02d engine_min ++ ":" ++ display.format_02d engine_sec
            ++ " | Opponent: "
            ++ display.format_02d opp_min ++ ":" ++ display.format_02d opp_sec)%string
  end.

Section Display.

Context {Board : Type} `{chess.Rules Board}.

(** The list [ranks] of [print_board], rows of piece letters and dots. *)
Definition board_ranks (board : Board) (player_is_white : bool)
  : list (list string) :=
  let ranks :=
    map (fun rank =>
           map (fun file =>
                  let square := display.square (file - 1) (rank - 1) in
                  match chess.piece_at board square with
                  | Some piece => display.symbol piece
                  | None => "."%string
                  end)
               (display.range_up 1 8))
        (display.range_down 8 8) in
  if negb player_is_white then map (@rev string) ranks else ranks.

Definition unicode_pieces : list (string * string) :=
  [("K", display.chess_symbol 0); ("Q", display.chess_symbol 1);
   ("R", display.chess_symbol 2); ("B", display.chess_symbol 3);
   ("N", display.chess_symbol 4); ("P", display.chess_symbol 5);
   ("k", display.chess_symbol 6); ("q", display.chess_symbol 7);
   ("r", display.chess_symbol 8); ("b", display.chess_symbol 9);
   ("n", display.chess_symbol 10); ("p", display.chess_symbol 11)]%string.

(** [print_board(board, player_is_white)]: the lines it prints. *)
Definition print_board (board : Board) (player_is_white : bool) : list string :=
  map (fun r => String.concat " " (map (fun p => display.get unicode_pieces p p) r))
      (board_ranks board player_is_white)
  ++ [EmptyString].

End Display.

Section Rejected.

Context {Board : Type} `{chess.Rules Board}.
Context {Stockfish : Type}.

(** A line the opponent block answers with a new prompt: not the quit
    word, and either no move at all or a move for which the test
    [move_obj in board.legal_moves] is false. *)
Definition rejected (g : Game Board Stockfish) (line : string) : Prop :=
  lower line <> "quit"%string /\
  match chess.from_uci line with
  | None => True
  | Some move_obj => chess.is_legal (board g) move_obj = false
  end.

End Rejected.

(** * Properties *)

(** ** Comparisons, [min] and [max] *)

Lemma ltb_true (a b : Q) : (a <? b) = true <-> a < b.
Proof.
  unfold Py.ltb. rewrite negb_true_iff. split; intro Hab.
  - apply Qnot_le_lt. intro Hle. apply Qle_bool_iff in Hle. congruence.
  - destruct (Qle_bool b a) eqn:E; [|reflexivity].
    apply Qle_bool_iff in E. exfalso. apply (Qlt_not_le _ _ Hab E).
Qed.

Lemma ltb_false (a b : Q) : (a <? b) = false <-> b <= a.
Proof.
  unfold Py.ltb. rewrite negb_false_iff. apply Qle_bool_iff.
Qed.

Lemma leb_true (a b : Q) : (a <=? b) = true <-> a <= b.
Proof. apply Qle_bool_iff. Qed.

Lemma leb_false (a b : Q) : (a <=? b) = false <-> b < a.
Proof.
  unfold Py.leb. split; intro Hab.
  - apply Qnot_le_lt. intro Hle. apply Qle_bool_iff in Hle. congruence.
  - destruct (Qle_bool a b) eqn:E; [|reflexivity].
    apply Qle_bool_iff in E. exfalso. apply (Qlt_not_le _ _ Hab E).
Qed.

(** Split on every comparison of the goal, keeping each outcome as an
    order fact. *)
Ltac compare_all :=
  repeat match goal with
         | |- context [?a <? ?b] =>
             let E := fresh "E" in
             destruct (a <? b) eqn:E;
             [apply ltb_true in E | apply ltb_false in E]
         | |- context [?a <=? ?b] =>
             let E := fresh "E" in
             destruct (a <=? b) eqn:E;
             [apply leb_true in E | apply leb_false in E]
         end.

Lemma min_le_l (a b : Q) : Py.min a b <= a.
Proof. unfold Py.min. compare_all; lra. Qed.

Lemma min_le_r (a b : Q) : Py.min a b <= b.
Proof. unfold Py.min. compare_all; lra. Qed.

Lemma min_glb (a b c : Q) : c <= a -> c <= b -> c <= Py.min a b.
Proof. intros. unfold Py.min. compare_all; lra. Qed.

Lemma max_le_l (a b : Q) : a <= Py.max a b.
Proof. unfold Py.max. compare_all; lra. Qed.

Lemma max_le_r (a b : Q) : b <= Py.max a b.
Proof. unfold Py.max. compare_all; lra. Qed.

Lemma min_Qmin (a b : Q) : Py.min a b == Qmin a b.
Proof.
  unfold Py.min. compare_all.
  - rewrite Q.min_r; lra.
  - rewrite Q.min_l; lra.
Qed.

Lemma float_0_7_below : Py.float_0_7 < 0.7.
Proof. reflexivity. Qed.

(** ** The random source *)

Lemma random_unit (g : Rng) :
  exists u, random.random g = Some (u, fun k => g (S k)) /\ 0 <= u /\ u < 1.
Proof.
  eexists. split; [reflexivity|].
  pose proof (N.mod_lt (g O) (2 ^ 53)) as Hm.
  set (m := (g O mod 2 ^ 53)%N) in *.
  unfold Qle, Qlt. cbn [Qnum Qden].
  change (2 ^ 53)%positive with 9007199254740992%positive.
  change (2 ^ 53)%N with 9007199254740992%N in Hm.
  lia.
Qed.

Lemma uniform_range (a b : Q) (g : Rng) :
  a <= b ->
  exists x, random.uniform a b g = Some (x, fun k => g (S k)) /\ a <= x /\ x <= b.
Proof.
  intro Hab. destruct (random_unit g) as (u & Hu & H0 & H1).
  unfold random.uniform, bind. rewrite Hu. eexists. split; [reflexivity|].
  split; nra.
Qed.

(** ** Clock *)

(** A tick made for an engine move charges the opponent's counter, a tick
    made for an opponent move charges the engine's counter. *)
Lemma update_clock_charges (is_engine_move : bool) (current_time : Q) (c : Clock) :
  let elapsed := current_time - last_move_time c in
  let c' := snd (update_clock is_engine_move current_time c) in
  fst (update_clock is_engine_move current_time c) = elapsed /\
  last_move_time c' = current_time /\
  engine_time_remaining c' =
    (if is_engine_move then engine_time_remaining c
     else engine_time_remaining c - elapsed) /\
  opponent_time_remaining c' =
    (if is_engine_move then opponent_time_remaining c - elapsed
     else opponent_time_remaining c).
Proof. destruct is_engine_move; repeat split. Qed.

(** C1, on the input where it fails: both counters at 600 s, last tick at
    time 0, the engine moves and its tick is taken at time 4. The mover is
    the engine, yet its counter stays at 600 and the opponent's drops to
    596. *)
Theorem update_clock_engine_move_at_4 :
  let c := snd (update_clock true 4 (initial_clock 0)) in
  fst (update_clock true 4 (initial_clock 0)) == 4 /\
  engine_time_remaining c == 600 /\
  opponent_time_remaining c == 596.
Proof. vm_compute. repeat split. Qed.

(** C4: [get_time_pressure] is exactly 1.0 from move 40 on, lies in [0, 1]
    for non-negative arguments, and is 0 with the full 600 s at move 0. *)
Theorem get_time_pressure_range :
  (forall (time_remaining : Q) (move_number : Z),
      (40 <= move_number)%Z ->
      get_time_pressure time_remaining move_number = 1.0) /\
  (forall (time_remaining : Q) (move_number : Z),
      0 <= time_remaining -> (0 <= move_number)%Z ->
      0 <= get_time_pressure time_remaining move_number /\
      get_time_pressure time_remaining move_number <= 1) /\
  GAME_DURATION == 600 /\ get_time_pressure 600 0 == 0.
Proof.
  split; [|split; [|split; reflexivity]].
  - intros time_remaining move_number Hmove. unfold get_time_pressure.
    destruct (40 - move_number <=? 0)%Z eqn:E; [reflexivity|].
    apply Z.leb_gt in E. lia.
  - intros time_remaining move_number _ _. unfold get_time_pressure.
    destruct (40 - move_number <=? 0)%Z; [split; lra|].
    split.
    + apply min_glb; [lra | apply max_le_l].
    + eapply Qle_trans; [apply min_le_l | lra].
Qed.

Lemma get_time_pressure_range_witness :
  get_time_pressure 10 45 = 1.0 /\
  (0 <= get_time_pressure 300 10 /\ get_time_pressure 300 10 <= 1).
Proof.
  destruct get_time_pressure_range as (Hlate & Hrange & _).
  split.
  - apply Hlate. lia.
  - apply Hrange; [lra | lia].
Defined.

Section PressureState.

Context {Board : Type} `{chess.Rules Board}.

(** C2, as the code has it: every recorded move, the engine's own or the
    opponent's, sets momentum to min(1.0, previous + 0.06); from a
    momentum of at most 1.0 it never decreases and never exceeds 1.0. *)
Theorem momentum_update (board : Board) (move_uci : string) (time_used : Q)
  (style : Style) (Hm : flow_momentum style <= 1) :
  let style' := update_liquid_momentum board move_uci time_used style in
  flow_momentum style' == Qmin 1 (flow_momentum style + 0.06) /\
  flow_momentum style <= flow_momentum style' /\
  flow_momentum style' <= 1.
Proof.
  cbn [update_liquid_momentum flow_momentum]. split; [|split].
  - rewrite min_Qmin. apply Q.min_compat; reflexivity.
  - apply min_glb; lra.
  - eapply Qle_trans; [apply min_le_l | lra].
Qed.

(** C3, as the code has it: pressure is the weighted sum
    0.6 * momentum + 0.3 * (legal move count / 20)
    + 0.1 * clamp(time_used / 5, 0, 1) over the updated momentum, with no
    cap at 1.0; it is never negative. *)
Theorem pressure_update (board : Board) (move_uci : string) (time_used : Q)
  (style : Style) (Hm : 0 <= flow_momentum style) (Ht : 0 <= time_used) :
  let style' := update_liquid_momentum board move_uci time_used style in
  let count := inject_Z (Z.of_nat (List.length (chess.legal_moves board))) in
  pressure style' ==
    0.6 * flow_momentum style' + 0.3 * (count / 20)
    + 0.1 * Qmax 0 (Qmin 1 (time_used / 5)) /\
  0 <= pressure style'.
Proof.
  cbn [update_liquid_momentum flow_momentum pressure].
  set (count := inject_Z (Z.of_nat (List.length (chess.legal_moves board)))).
  assert (Hcount : 0 <= count).
  { unfold count. change 0 with (inject_Z 0). rewrite <- Zle_Qle. lia. }
  assert (Heff : Py.min 1.0 (time_used / 5.0) == Qmax 0 (Qmin 1 (time_used / 5))).
  { rewrite min_Qmin.
    assert (Hq : 0 <= time_used / 5) by (apply Qle_shift_div_l; lra).
    rewrite Q.max_r.
    - apply Q.min_compat; [reflexivity|]. apply Qdiv_comp; reflexivity.
    - apply Q.min_glb; [lra | exact Hq]. }
  assert (Hmom : 0 <= Py.min 1.0 (flow_momentum style + 0.06)).
  { apply min_glb; lra. }
  assert (Hcomplex : count / 20.0 == count / 20) by (apply Qdiv_comp; reflexivity).
  assert (H20 : 0 <= count / 20) by (apply Qle_shift_div_l; lra).
  assert (Hclamp : 0 <= Qmax 0 (Qmin 1 (time_used / 5))) by apply Q.le_max_l.
  rewrite Heff, Hcomplex. split; lra.
Qed.

End PressureState.

Lemma momentum_update_witness :
  let style' := update_liquid_momentum (Fixture.middlegame 30) "a1a2" 3 LIQUID_STYLE in
  flow_momentum style' == Qmin 1 (flow_momentum LIQUID_STYLE + 0.06) /\
  flow_momentum LIQUID_STYLE <= flow_momentum style' /\
  flow_momentum style' <= 1.
Proof.
  apply (momentum_update (Fixture.middlegame 30) "a1a2" 3 LIQUID_STYLE).
  simpl. lra.
Defined.

Lemma pressure_update_witness :
  let style' := update_liquid_momentum (Fixture.middlegame 30) "a1a2" 3 LIQUID_STYLE in
  let count := inject_Z (Z.of_nat (List.length (chess.legal_moves (Fixture.middlegame 30)))) in
  pressure style' ==
    0.6 * flow_momentum style' + 0.3 * (count / 20)
    + 0.1 * Qmax 0 (Qmin 1 (3 / 5)) /\
  0 <= pressure style'.
Proof.
  apply (pressure_update (Fixture.middlegame 30) "a1a2" 3 LIQUID_STYLE).
  - simpl. lra.
  - lra.
Defined.

(** C2, refuted as stated: recording the opponent's move ["a1a2"] from the
    initial state changes momentum (0 becomes 0.06). *)
Lemma opponent_move_changes_momentum :
  match opponent_turn ["a1a2"%string] (fun _ => 5)
          (Fixture.game (Fixture.middlegame 30) (initial_clock 0) LIQUID_STYLE) with
  | Ok (g', _) => ~ flow_momentum (style g') == flow_momentum LIQUID_STYLE
  | _ => False
  end.
Proof. vm_compute. discriminate. Qed.

(** C3, refuted as stated: with momentum 1.0, 30 legal moves and 3 s used,
    pressure is 1.11, above the claimed cap of 1.0. *)
Lemma pressure_exceeds_one :
  let style :=
    {| pressure := 0.9; flow_momentum := 1.0;
       time_awareness := "balanced"; phase := crushing_tide |} in
  let style' := update_liquid_momentum (Fixture.middlegame 30) "a1a2" 3 style in
  pressure style' == 1.11 /\ ~ pressure style' <= 1.
Proof. vm_compute. split; [reflexivity | intro Hle; apply Hle; reflexivity]. Qed.

(** ** Thinking time *)

Section ThinkingTime.

Context {Board : Type} `{chess.Rules Board}.

(** The value returned is the last draw [base], floored and then capped;
    below 60 s the last draw is from [uniform(0.5, 2.0)]. *)
Lemma adaptive_thinking_time_shape (board : Board) (time_remaining pressure : Q)
  (g : Rng) :
  exists base g',
    adaptive_thinking_time board time_remaining pressure g =
      Some (Py.min (Py.max 0.3 base) (time_remaining * 0.1), g') /\
    (time_remaining < 60 -> 0.5 <= base /\ base <= 2).
Proof.
  unfold adaptive_thinking_time, bind.
  set (tp := get_time_pressure _ _).
  assert (Hfirst : exists x g1,
    (if pressure <? 0.3 then random.uniform 2.0 4.0
     else if pressure <? 0.7 then random.uniform 3.0 6.0
     else random.uniform 1.5 3.5) g = Some (x, g1)).
  { compare_all; eexists; eexists; reflexivity. }
  destruct Hfirst as (x & g1 & ->).
  destruct (time_remaining <? 60) eqn:E60.
  - destruct (uniform_range 0.5 2.0 g1) as (y & -> & Hy); [lra|].
    exists y. eexists. split; [reflexivity|]. intros _. lra.
  - apply ltb_false in E60.
    destruct (time_remaining <? 180).
    + destruct (uniform_range 1.0 3.0 g1) as (y & -> & Hy); [lra|].
      exists y. eexists. split; [reflexivity|]. intros. lra.
    + eexists. eexists. split; [reflexivity|]. intros. lra.
Qed.

(** C7: with more than 3 s remaining the thinking time is at least 0.3 s
    and at most a tenth of the remaining time, whatever is drawn. *)
Theorem adaptive_thinking_time_bounds (board : Board)
  (time_remaining pressure : Q) (g : Rng) (Hrem : 3 < time_remaining) :
  exists t g',
    adaptive_thinking_time board time_remaining pressure g = Some (t, g') /\
    0.3 <= t /\ t <= 0.1 * time_remaining.
Proof.
  destruct (adaptive_thinking_time_shape board time_remaining pressure g)
    as (base & g' & Heq & _).
  eexists. exists g'. split; [exact Heq|]. split.
  - apply min_glb; [apply max_le_l | lra].
  - eapply Qle_trans; [apply min_le_r | lra].
Qed.


End ThinkingTime.

Lemma adaptive_thinking_time_bounds_witness :
  exists t g',
    adaptive_thinking_time (Fixture.middlegame 30) 600 0.5 Fixture.zeros = Some (t, g') /\
    0.3 <= t /\ t <= 0.1 * 600.
Proof.
  apply (adaptive_thinking_time_bounds (Fixture.middlegame 30) 600 0.5 Fixture.zeros).
  lra.
Defined.



(** ** Move selection *)

Lemma choice_in {A : Type} (seq : list A) (g : Rng) :
  seq <> [] ->
  exists x, random.choice seq g = Some (x, fun k => g (S k)) /\ In x seq.
Proof.
  intro Hne. destruct seq as [|a rest]; [congruence|].
  unfold random.choice, random.randbelow, bind, draw, ret.
  set (n := N.of_nat (List.length (a :: rest))).
  assert (Hlt : (N.to_nat (g O mod n) < List.length (a :: rest))%nat).
  { assert (Hn : n <> 0%N) by (unfold n; simpl; lia).
    pose proof (N.mod_lt (g O) n Hn). unfold n in *. lia. }
  destruct (nth_error (a :: rest) (N.to_nat (g O mod n))) as [x|] eqn:E.
  - exists x. split; [reflexivity|]. eapply nth_error_In. exact E.
  - apply nth_error_None in E. lia.
Qed.

Lemma slice_incl {A : Type} (i j : nat) (l : list A) (x : A) :
  In x (Py.slice i j l) -> In x l.
Proof.
  unfold Py.slice. intro Hin.
  rewrite <- (firstn_skipn i l). apply in_or_app. right.
  rewrite <- (firstn_skipn (j - i) (skipn i l)). apply in_or_app. left.
  exact Hin.
Qed.

Section Selector.

Context {Board : Type} `{chess.Rules Board}.

(** [blitz_mode_moves] on a non-empty list, by the value of its draw. *)
Lemma blitz_mode_moves_run (top : MoveInfo) (rest : list MoveInfo) (g : Rng) :
  exists u,
    random.random g = Some (u, fun k => g (S k)) /\
    0 <= u /\ u < 1 /\
    blitz_mode_moves (top :: rest) g =
      Some (Move (if u <? 0.8 then top else nth 0 rest top), fun k => g (S k)).
Proof.
  destruct (random_unit g) as (u & Hu & H0 & H1).
  exists u. repeat (split; [assumption|]).
  unfold blitz_mode_moves, bind. rewrite Hu.
  destruct (u <? 0.8); [reflexivity|].
  destruct rest as [|second rest']; reflexivity.
Qed.

(** The draw is below 0.8 for 7205759403792794 of the 2^53 words, the
    fraction that the float 0.8 denotes. *)
Lemma blitz_threshold_words (g : Rng) (u : Q) (g' : Rng) :
  random.random g = Some (u, g') ->
  (u <? 0.8) = true <-> (g O mod 2 ^ 53 < 7205759403792794)%N.
Proof.
  intro Hu. injection Hu as <- _.
  rewrite ltb_true.
  unfold Qlt. cbn [Qnum Qden].
  change (2 ^ 53)%positive with 9007199254740992%positive.
  change (2 ^ 53)%N with 9007199254740992%N.
  lia.
Qed.

(** The draw is below the float of 0.7 for the 6305039478318694 words
    below the one that gives that float itself: the test of
    [calm_flow_moves] accepts one word fewer than a test against 7/10. *)
Lemma calm_threshold_words (g : Rng) (u : Q) (g' : Rng) :
  random.random g = Some (u, g') ->
  ((u <? Py.float_0_7) = true <-> (g O mod 2 ^ 53 < 6305039478318694)%N) /\
  ((u <? 0.7) = true <-> (g O mod 2 ^ 53 < 6305039478318695)%N).
Proof.
  intro Hu. injection Hu as <- _.
  rewrite !ltb_true.
  unfold Qlt, Py.float_0_7. cbn [Qnum Qden].
  change (2 ^ 53)%positive with 9007199254740992%positive.
  change (2 ^ 53)%N with 9007199254740992%N.
  split; lia.
Qed.

(** C6: below 30 s and with at least one candidate, the selector returns
    the top-ranked candidate when the draw is below 0.8 and the
    second-ranked one otherwise (the top-ranked again when there is no
    second); with two candidates or more the second-ranked exists, so
    nothing of lower rank is returned. *)
Theorem blitz_top_two (board : Board) (top_moves : list MoveInfo)
  (time_remaining time_pressure : Q) (style : Style) (g : Rng)
  (Hne : top_moves <> []) (Hlow : time_remaining < 30) :
  exists u top,
    random.random g = Some (u, fun k => g (S k)) /\
    0 <= u /\ u < 1 /\
    nth_error top_moves 0 = Some top /\
    let second := nth 1 top_moves top in
    ((2 <= List.length top_moves)%nat -> nth_error top_moves 1 = Some second) /\
    time_aware_selection board top_moves time_remaining time_pressure style g =
      Some (Move (if u <? 0.8 then top else second), fun k => g (S k)).
Proof.
  destruct top_moves as [|top rest]; [congruence|].
  destruct (blitz_mode_moves_run top rest g) as (u & Hu & H0 & H1 & Hrun).
  exists u, top. repeat (split; [assumption || reflexivity|]).
  cbn zeta. split.
  - intro Hlen. destruct rest as [|second rest']; [simpl in Hlen; lia|reflexivity].
  - unfold time_aware_selection.
    apply ltb_true in Hlow. rewrite Hlow. exact Hrun.
Qed.

Lemma solid_moves_none (board : Board) (top_moves : list MoveInfo) :
  (forall move_info, In move_info top_moves ->
                     is_calm_move board (Move move_info) = Some false) ->
  solid_moves board top_moves = Some [].
Proof.
  induction top_moves as [|move_info rest IH]; intro Hnone; [reflexivity|].
  simpl. rewrite (Hnone move_info (or_introl eq_refl)).
  rewrite IH; [reflexivity|].
  intros mi Hin. apply Hnone. right. exact Hin.
Qed.

(** The noise branch of [calm_flow_moves], run on the generator [g]. *)
Lemma noise_branch (top_moves : list MoveInfo) (top : MoveInfo)
  (time_pressure : Q) (g : Rng) :
  nth_error top_moves 0 = Some top ->
  exists v chosen g',
    random.random g = Some (v, fun k => g (S k)) /\
    (v0 <- random.random ;;
     if v0 <? Py.max 0.2 (time_pressure * 0.3) then
       if (3 <? List.length top_moves)%nat
       then random.choice (Py.slice 1 4 top_moves)
       else getitem top_moves 0
     else getitem top_moves 0) g = Some (chosen, g') /\
    In chosen top_moves /\
    (if (v <? Py.max 0.2 (time_pressure * 0.3)) &&
        (3 <? List.length top_moves)%nat
     then In chosen (Py.slice 1 4 top_moves)
     else chosen = top).
Proof.
  intro Htop. destruct (random_unit g) as (v & Hv & _).
  assert (Hin : In top top_moves) by (eapply nth_error_In; exact Htop).
  exists v. unfold bind at 1. rewrite Hv.
  destruct (v <? Py.max 0.2 (time_pressure * 0.3)); cbn [andb].
  - destruct (3 <? List.length top_moves)%nat eqn:Elen.
    + apply Nat.ltb_lt in Elen.
      destruct (choice_in (Py.slice 1 4 top_moves) (fun k => g (S k)))
        as (x & Hx & Hxin).
      { destruct top_moves as [|a [|b rest]]; simpl in Elen; try lia.
        unfold Py.slice. simpl. discriminate. }
      exists x. eexists. repeat split; try eassumption.
      eapply slice_incl. exact Hxin.
    + exists top. eexists. unfold getitem. rewrite Htop.
      repeat split; assumption.
  - exists top. eexists. unfold getitem. rewrite Htop.
    repeat split; assumption.
Qed.

(** C8: in the calm phase, when no candidate of a non-empty list is
    solid, the selector draws for the noise test at once and returns a
    candidate of the list (one of ranks 2-4 when the draw is below the
    noise probability and there are four candidates or more, the top one
    otherwise); it does not raise. *)
Theorem calm_without_solid (board : Board) (top_moves : list MoveInfo)
  (time_pressure : Q) (g : Rng)
  (Hne : top_moves <> [])
  (Hnone : forall move_info, In move_info top_moves ->
                             is_calm_move board (Move move_info) = Some false) :
  exists v top chosen g',
    random.random g = Some (v, fun k => g (S k)) /\
    nth_error top_moves 0 = Some top /\
    calm_flow_moves board top_moves time_pressure g = Some (Move chosen, g') /\
    In chosen top_moves /\
    (if (v <? Py.max 0.2 (time_pressure * 0.3)) &&
        (3 <? List.length top_moves)%nat
     then In chosen (Py.slice 1 4 top_moves)
     else chosen = top).
Proof.
  destruct top_moves as [|top rest] eqn:Etop; [congruence|]. rewrite <- Etop in *.
  assert (Htop : nth_error top_moves 0 = Some top) by (rewrite Etop; reflexivity).
  destruct (noise_branch top_moves top time_pressure g Htop)
    as (v & chosen & g' & Hv & Hrun & Hin & Hrank).
  exists v, top, chosen, g'. repeat (split; [assumption|]).
  split; [|split; assumption].
  unfold calm_flow_moves.
  rewrite (solid_moves_none board top_moves Hnone).
  cbn [lift]. unfold bind at 1 2 3. cbn [ret].
  unfold bind in Hrun. unfold bind. rewrite Hrun. reflexivity.
Qed.

End Selector.

Section SelectorCall.

Context {Board : Type} `{chess.Rules Board}.
Context {Stockfish : Type} `{Engine Stockfish}.

Lemma randint_run (a b : Z) (g : Rng) :
  (a <= b)%Z ->
  exists k, random.randint a b g = Some (k, fun i => g (S i)) /\ (a <= k <= b)%Z.
Proof.
  intro Hab. eexists. split; [reflexivity|].
  assert (Hn : Z.to_N (b - a + 1) <> 0%N) by lia.
  pose proof (N.mod_lt (g O) _ Hn) as Hlt.
  set (r := (g O mod Z.to_N (b - a + 1))%N) in *. lia.
Qed.

(** X28: the whole of [liquid_style_move_selection] below 30 s: the engine is
    asked for 3, 4 or 6 candidates at a skill level from 16 to 20, drawn
    with the first word; the answer is [None] without candidates;
    otherwise [u], the value [random.random()] makes of the second word,
    decides: the top-ranked candidate when [u] is below 0.8, the
    second-ranked one (the top-ranked again when there is no second)
    otherwise. *)
Lemma liquid_style_move_selection_blitz (board : Board) (sf : Stockfish)
  (time_remaining : Q) (style : Style) (g : Rng) :
  time_remaining < 30 ->
  exists skill top_n,
    (16 <= skill <= 20)%Z /\ In top_n [3; 4; 6]%nat /\
    let sf' := set_skill_level sf skill in
    match get_top_moves sf' top_n with
    | [] =>
        liquid_style_move_selection board sf time_remaining style g =
          Some ((None, sf'), fun k => g (S k))
    | top :: rest =>
        exists u,
          random.random (fun i => g (S i)) = Some (u, fun k => g (S (S k))) /\
          0 <= u /\ u < 1 /\
          liquid_style_move_selection board sf time_remaining style g =
            Some ((Some (Move (if u <? 0.8 then top else nth 0 rest top)), sf'),
                  fun k => g (S (S k)))
    end.
Proof.
  intro Hlow. apply ltb_true in Hlow.
  unfold liquid_style_move_selection.
  set (tp := get_time_pressure _ _).
  set (top_n := if 0.8 <? tp then 3%nat
                else if 0.7 <? get_positional_tension board then 6%nat
                else 4%nat).
  assert (Hn : In top_n [3; 4; 6]%nat).
  { unfold top_n. compare_all; simpl; auto. }
  assert (Hskill : exists skill,
    (if 0.7 <? tp then random.randint 16 18 else random.randint 18 20) g =
      Some (skill, fun i => g (S i)) /\ (16 <= skill <= 20)%Z).
  { destruct (0.7 <? tp).
    - destruct (randint_run 16 18 g) as (k & Hk & Hr); [lia|]. exists k. split; [exact Hk | lia].
    - destruct (randint_run 18 20 g) as (k & Hk & Hr); [lia|]. exists k. split; [exact Hk | lia]. }
  destruct Hskill as (skill & Hdraw & Hrange).
  exists skill, top_n. split; [exact Hrange|]. split; [exact Hn|].
  cbn zeta. unfold bind, time_aware_selection. rewrite Hdraw, Hlow.
  destruct (get_top_moves (set_skill_level sf skill) top_n) as [|top rest].
  - reflexivity.
  - destruct (blitz_mode_moves_run top rest (fun i => g (S i)))
      as (u & Hu & H0' & H1' & Hrun).
    exists u. split; [exact Hu|]. split; [exact H0'|]. split; [exact H1'|].
    rewrite Hrun. reflexivity.
Qed.

End SelectorCall.

Lemma blitz_top_two_witness :
  exists u top,
    random.random Fixture.top_word = Some (u, fun k => Fixture.top_word (S k)) /\
    0 <= u /\ u < 1 /\
    nth_error Fixture.candidates 0 = Some top /\
    let second := nth 1 Fixture.candidates top in
    ((2 <= List.length Fixture.candidates)%nat ->
     nth_error Fixture.candidates 1 = Some second) /\
    time_aware_selection (Fixture.middlegame 30) Fixture.candidates 20 0.5
      LIQUID_STYLE Fixture.top_word =
      Some (Move (if u <? 0.8 then top else second),
            fun k => Fixture.top_word (S k)).
Proof.
  apply (blitz_top_two (Fixture.middlegame 30) Fixture.candidates 20 0.5
           LIQUID_STYLE Fixture.top_word).
  - discriminate.
  - lra.
Defined.

Lemma calm_without_solid_witness :
  exists v top chosen g',
    random.random Fixture.zeros = Some (v, fun k => Fixture.zeros (S k)) /\
    nth_error Fixture.candidates 0 = Some top /\
    calm_flow_moves (Fixture.middlegame 30) Fixture.candidates 0.5 Fixture.zeros =
      Some (Move chosen, g') /\
    In chosen Fixture.candidates /\
    (if (v <? Py.max 0.2 (0.5 * 0.3)) && (3 <? List.length Fixture.candidates)%nat
     then In chosen (Py.slice 1 4 Fixture.candidates)
     else chosen = top).
Proof.
  apply (calm_without_solid (Fixture.middlegame 30) Fixture.candidates 0.5
           Fixture.zeros).
  - discriminate.
  - intros move_info Hin. simpl in Hin.
    repeat (destruct Hin as [<- | Hin]; [reflexivity|]).
    contradiction.
Defined.

Section CalmNoise.

Context {Board : Type} `{chess.Rules Board}.

(** C9: in the noise branch of the calm phase (no solid candidate, or a
    first draw [u] of 0.7 or more), a list of at most three candidates
    yields the top-ranked one whatever the noise draw [v] is; the pick
    among ranks 2-4 is made only with four candidates or more, when [v]
    is below the noise probability. *)
Theorem calm_noise_short_list (board : Board) (top_moves solid : list MoveInfo)
  (top : MoveInfo) (time_pressure u : Q) (g g1 : Rng)
  (Hsolid : solid_moves board top_moves = Some solid)
  (Htop : nth_error top_moves 0 = Some top)
  (Hu : random.random g = Some (u, g1))
  (Hnoise : solid = [] \/ 0.7 <= u) :
  let gn := match solid with [] => g | _ :: _ => g1 end in
  exists v gn',
    random.random gn = Some (v, gn') /\
    ((List.length top_moves <= 3)%nat ->
     calm_flow_moves board top_moves time_pressure g = Some (Move top, gn')) /\
    ((4 <= List.length top_moves)%nat ->
     calm_flow_moves board top_moves time_pressure g =
       if v <? Py.max 0.2 (time_pressure * 0.3)
       then (move_info <- random.choice (Py.slice 1 4 top_moves) ;;
             ret (Move move_info)) gn'
       else Some (Move top, gn')).
Proof.
  intro gn.
  destruct (random_unit gn) as (v & Hv & _).
  exists v. eexists. split; [exact Hv|].
  assert (Hrun : calm_flow_moves board top_moves time_pressure g =
    (chosen <- (v0 <- random.random ;;
                if v0 <? Py.max 0.2 (time_pressure * 0.3) then
                  if (3 <? List.length top_moves)%nat
                  then random.choice (Py.slice 1 4 top_moves)
                  else getitem top_moves 0
                else getitem top_moves 0) ;;
     ret (Move chosen)) gn).
  { unfold calm_flow_moves. rewrite Hsolid. cbn [lift].
    unfold bind at 1. cbn [ret]. subst gn.
    destruct solid as [|s0 solid'].
    - reflexivity.
    - destruct Hnoise as [Hnil | Hge]; [discriminate|].
      assert (Hge' : (u <? Py.float_0_7) = false).
      { apply ltb_false. pose proof float_0_7_below. lra. }
      unfold bind at 1 2. rewrite Hu. cbn [ret]. rewrite Hge'. reflexivity. }
  rewrite Hrun. unfold bind. rewrite Hv.
  unfold getitem. rewrite Htop.
  split; intro Hlen.
  - apply Nat.ltb_ge in Hlen. rewrite Hlen.
    destruct (v <? Py.max 0.2 (time_pressure * 0.3)); reflexivity.
  - assert (Hlt : (3 <? List.length top_moves)%nat = true)
      by (apply Nat.ltb_lt; lia).
    rewrite Hlt.
    destruct (v <? Py.max 0.2 (time_pressure * 0.3)); reflexivity.
Qed.

End CalmNoise.

Lemma calm_noise_short_list_witness :
  let u := Z.of_N (2 ^ 53 - 1) # 2 ^ 53 in
  let g1 := fun k : nat => Fixture.top_word (S k) in
  exists v gn',
    random.random g1 = Some (v, gn') /\
    ((List.length Fixture.opening_candidates <= 3)%nat ->
     calm_flow_moves Fixture.opening Fixture.opening_candidates 0.5 Fixture.top_word =
       Some (Move (Fixture.info "e2e4"), gn')) /\
    ((4 <= List.length Fixture.opening_candidates)%nat ->
     calm_flow_moves Fixture.opening Fixture.opening_candidates 0.5 Fixture.top_word =
       if v <? Py.max 0.2 (0.5 * 0.3)
       then (move_info <- random.choice (Py.slice 1 4 Fixture.opening_candidates) ;;
             ret (Move move_info)) gn'
       else Some (Move (Fixture.info "e2e4"), gn')).
Proof.
  intros u g1.
  apply (calm_noise_short_list Fixture.opening Fixture.opening_candidates
           [Fixture.info "e2e4"; Fixture.info "g1f3"] (Fixture.info "e2e4")
           0.5 u Fixture.top_word g1).
  - reflexivity.
  - reflexivity.
  - reflexivity.
  - right. unfold u. vm_compute. discriminate.
Defined.

(** ** Game over *)

Section GameOver.

Context {Board : Type} `{chess.Rules Board}.
Context {Stockfish : Type} `{Engine Stockfish}.

Lemma loop_condition_out_of_time (g : Game Board Stockfish) :
  engine_time_remaining (clock g) <= 0 -> loop_condition g = false.
Proof.
  intro Hz. unfold loop_condition.
  apply ltb_false in Hz. rewrite Hz.
  rewrite andb_false_r. reflexivity.
Qed.

Lemma white_loop_out_of_time (fuel : nat) (g : Game Board Stockfish) (w : World) :
  engine_time_remaining (clock g) <= 0 -> white_loop (S fuel) g w = Ok (g, w).
Proof.
  intro Hz. simpl. rewrite (loop_condition_out_of_time g Hz). reflexivity.
Qed.

Lemma black_loop_out_of_time (fuel : nat) (g : Game Board Stockfish) (w : World) :
  engine_time_remaining (clock g) <= 0 -> black_loop (S fuel) g w = Ok (g, w).
Proof.
  intro Hz. simpl. rewrite (loop_condition_out_of_time g Hz). reflexivity.
Qed.

Lemma message_out_of_time (g : Game Board Stockfish) :
  engine_time_remaining (clock g) <= 0 -> game_over_message g = RanOutOfTime.
Proof.
  intro Hz. unfold game_over_message.
  apply leb_true in Hz. rewrite Hz. reflexivity.
Qed.

(** C5: with the engine's remaining time at exactly 0 the loop of either
    branch stops at its guard, leaving the globals as they are, and the
    message is the time forfeit, whatever the board reports (checkmate
    included). *)
Theorem time_forfeit_first (g : Game Board Stockfish) (player_is_white : bool) (fuel : nat)
  (w : World) (Hzero : engine_time_remaining (clock g) == 0) :
  loop_condition g = false /\
  play player_is_white (S fuel) g w = Ok ((g, RanOutOfTime), w).
Proof.
  assert (Hz : engine_time_remaining (clock g) <= 0) by (rewrite Hzero; lra).
  split; [apply loop_condition_out_of_time; exact Hz|].
  unfold play, io_bind.
  destruct player_is_white.
  - rewrite (white_loop_out_of_time fuel g w Hz).
    unfold io_ret. rewrite (message_out_of_time g Hz). reflexivity.
  - rewrite (black_loop_out_of_time fuel g w Hz).
    unfold io_ret. rewrite (message_out_of_time g Hz). reflexivity.
Qed.

(** The engine block leaves the engine's counter alone, and ends in a
    result or in an exception. *)
Lemma engine_turn_engine_time (g : Game Board Stockfish) (w : World) :
  match engine_turn g w with
  | Ok ((_, g'), _) =>
      engine_time_remaining (clock g') = engine_time_remaining (clock g)
  | Crashed => True
  | Exited | OutOfFuel => False
  end.
Proof.
  unfold engine_turn, io_bind, rand.
  destruct (liquid_style_move_selection _ _ _ _ _) as [[[best sf'] g1]|];
    [|exact I].
  cbn [fst snd].
  destruct best as [best_move|]; [|reflexivity].
  destruct (best_move =? "")%string; [reflexivity|].
  cbn [rng now stdin board clock style with_sf].
  destruct (adaptive_thinking_time _ _ _ _) as [[thinking_time g2]|]; [|exact I].
  unfold sleep. destruct (thinking_time <? 0); [exact I|].
  unfold datetime_now. cbn [rng now stdin].
  unfold make_move. cbn [board with_clock].
  destruct (chess.push_uci _ _); [|exact I].
  reflexivity.
Qed.

Lemma black_loop_step (fuel : nat) (g : Game Board Stockfish) :
  black_loop (S fuel) g =
    if loop_condition g then
      g <~ opponent_move g ;;
      if chess.is_game_over (board g) ||
         (opponent_time_remaining (clock g) <=? 0)
      then io_ret g
      else
        r <~ engine_turn g ;;
        let g := snd r in
        if negb (fst r) then io_ret g
        else black_loop fuel g
    else io_ret g.
Proof. reflexivity. Qed.

Lemma white_loop_step (fuel : nat) (g : Game Board Stockfish) :
  white_loop (S fuel) g =
    if loop_condition g then
      r <~ engine_turn g ;;
      let g := snd r in
      if negb (fst r) then io_ret g
      else if chess.is_game_over (board g) ||
              (engine_time_remaining (clock g) <=? 0)
      then io_ret g
      else
        g <~ opponent_move g ;;
        white_loop fuel g
    else io_ret g.
Proof. reflexivity. Qed.

(** X27: in the black branch the engine's counter is charged by the opponent
    block, in the middle of an iteration: when it is left at exactly 0
    the run ends with the time forfeit, unless an exception ends the
    process first. *)
Lemma black_iteration_time_forfeit (fuel : nat) (g g1 : Game Board Stockfish)
  (w w1 : World) :
  loop_condition g = true ->
  opponent_move g w = Ok (g1, w1) ->
  engine_time_remaining (clock g1) == 0 ->
  match play false (S (S fuel)) g w with
  | Ok ((g', message), _) =>
      message = RanOutOfTime /\ engine_time_remaining (clock g') == 0
  | Crashed => True
  | Exited | OutOfFuel => False
  end.
Proof.
  intros Hcond Hopp Hzero.
  assert (Hz1 : engine_time_remaining (clock g1) <= 0) by (rewrite Hzero; lra).
  unfold play. rewrite black_loop_step, Hcond.
  unfold io_bind. rewrite Hopp.
  destruct (chess.is_game_over (board g1) ||
            (opponent_time_remaining (clock g1) <=? 0)).
  - unfold io_ret. rewrite (message_out_of_time g1 Hz1).
    split; [reflexivity | assumption].
  - pose proof (engine_turn_engine_time g1 w1) as Hturn.
    destruct (engine_turn g1 w1) as [[[continue g2] w2]| | |];
      try contradiction; [|exact I].
    cbn [fst snd].
    assert (Hz2 : engine_time_remaining (clock g2) <= 0)
      by (rewrite Hturn; exact Hz1).
    assert (Hzero2 : engine_time_remaining (clock g2) == 0)
      by (rewrite Hturn; exact Hzero).
    destruct continue; cbn [negb].
    + rewrite (black_loop_out_of_time fuel g2 w2 Hz2).
      rewrite (message_out_of_time g2 Hz2). split; [reflexivity | assumption].
    + unfold io_ret. rewrite (message_out_of_time g2 Hz2).
      split; [reflexivity | assumption].
Qed.

(** X26: in the white branch the opponent block ends the iteration: when it
    leaves the engine's counter at exactly 0 the next guard stops the
    loop and the run ends with the time forfeit. *)
Lemma white_iteration_time_forfeit (fuel : nat) (g g1 g2 : Game Board Stockfish)
  (w w1 w2 : World) :
  loop_condition g = true ->
  engine_turn g w = Ok ((true, g1), w1) ->
  chess.is_game_over (board g1) = false ->
  opponent_move g1 w1 = Ok (g2, w2) ->
  engine_time_remaining (clock g2) == 0 ->
  play true (S (S fuel)) g w = Ok ((g2, RanOutOfTime), w2).
Proof.
  intros Hcond Hturn Hover Hopp Hzero.
  assert (Hz2 : engine_time_remaining (clock g2) <= 0) by (rewrite Hzero; lra).
  pose proof (engine_turn_engine_time g w) as Hkeep. rewrite Hturn in Hkeep.
  assert (Hpos : (engine_time_remaining (clock g1) <=? 0) = false).
  { apply leb_false. rewrite Hkeep.
    unfold loop_condition in Hcond.
    apply andb_prop in Hcond. destruct Hcond as [Hcond _].
    apply andb_prop in Hcond. destruct Hcond as [_ Hcond].
    apply ltb_true in Hcond. exact Hcond. }
  unfold play. rewrite white_loop_step, Hcond.
  unfold io_bind. rewrite Hturn. cbn [fst snd negb].
  rewrite Hover, Hpos. cbn [orb]. rewrite Hopp.
  rewrite (white_loop_out_of_time fuel g2 w2 Hz2).
  unfold io_ret. rewrite (message_out_of_time g2 Hz2). reflexivity.
Qed.

End GameOver.

Lemma time_forfeit_first_witness :
  let g := Fixture.game Fixture.checkmated
             {| engine_time_remaining := 0;
                opponent_time_remaining := 300;
                last_move_time := 900 |}
             LIQUID_STYLE in
  let w := {| rng := Fixture.zeros; now := fun _ => 900; stdin := [] |} in
  chess.is_checkmate (board g) = true /\
  loop_condition g = false /\
  play false 1 g w = Ok ((g, RanOutOfTime), w).
Proof.
  intros g w. split; [reflexivity|].
  apply (time_forfeit_first g false 0 w). reflexivity.
Defined.

(** The tick at the call site of the engine block: the engine thinks until
    time 4 and moves, the opponent's counter is charged. *)
Lemma engine_turn_charges_opponent :
  match engine_turn
          (Fixture.game (Fixture.middlegame 30) (initial_clock 0) LIQUID_STYLE)
          {| rng := Fixture.zeros; now := fun _ => 4; stdin := [] |} with
  | Ok ((continue, g'), _) =>
      continue = true /\
      engine_time_remaining (clock g') == 600 /\
      opponent_time_remaining (clock g') == 596
  | _ => False
  end.
Proof. vm_compute. repeat split. Qed.

(** * Further properties *)

(** ** Pressure state *)

Lemma max_id (a b : Q) : a <= b -> Py.max a b == b.
Proof. intro Hab. unfold Py.max. compare_all; lra. Qed.

Lemma time_pressure_unit (time_remaining : Q) (move_number : Z) :
  0 <= get_time_pressure time_remaining move_number /\
  get_time_pressure time_remaining move_number <= 1.
Proof.
  unfold get_time_pressure.
  destruct (40 - move_number <=? 0)%Z; [split; lra|].
  split.
  - apply min_glb; [lra | apply max_le_l].
  - eapply Qle_trans; [apply min_le_l | lra].
Qed.

Lemma count_nonneg (n : nat) : 0 <= inject_Z (Z.of_nat n).
Proof. change 0 with (inject_Z 0). rewrite <- Zle_Qle. lia. Qed.

Section PressureMore.

Context {Board : Type} `{chess.Rules Board}.

(** X1: after every update the phase is read off the new pressure with
    the bounds 0.4 and 0.8, each bound belonging to the higher phase. *)
Theorem phase_follows_pressure (board : Board) (move_uci : string)
  (time_used : Q) (style : Style) :
  let style' := update_liquid_momentum board move_uci time_used style in
  (phase style' = calm_flow <-> pressure style' < 0.4) /\
  (phase style' = building_waves <->
     0.4 <= pressure style' /\ pressure style' < 0.8) /\
  (phase style' = crushing_tide <-> 0.8 <= pressure style').
Proof.
  cbn [update_liquid_momentum phase pressure].
  set (p := _ + _ + _). unfold phase_of.
  compare_all; repeat split; intros; try discriminate; try lra.
  all: match goal with Hc : _ /\ _ |- _ => destruct Hc; lra end.
Qed.

(** X2: the positional tension is a number from 0 to 1. *)
Theorem positional_tension_unit (board : Board) :
  0 <= get_positional_tension board /\ get_positional_tension board <= 1.
Proof.
  unfold get_positional_tension.
  pose proof (count_nonneg (List.length (chess.piece_map board))) as Hp.
  pose proof (count_nonneg (List.length (chess.legal_moves board))) as Hm.
  set (pc := inject_Z _) in *. set (mc := inject_Z (Z.of_nat (List.length (chess.legal_moves board)))) in *.
  assert (H32 : 0 <= pc / 32.0) by (apply Qle_shift_div_l; lra).
  assert (H50 : 0 <= mc / 50.0) by (apply Qle_shift_div_l; lra).
  assert (Hmin : 0 <= Py.min 0.3 (mc / 50.0)) by (apply min_glb; lra).
  split.
  - apply min_glb; [lra|].
    destruct (chess.is_check board), (existsb _ _); lra.
  - eapply Qle_trans; [apply min_le_l | lra].
Qed.

(** X3: with at most 32 pieces, no check and no capture to make, the
    tension is at most 0.6, below the bound 0.7 that makes the selector
    ask for six candidates. *)
Theorem quiet_position_tension (board : Board)
  (Hpieces : (List.length (chess.piece_map board) <= 32)%nat)
  (Hcheck : chess.is_check board = false)
  (Hquiet : forall move, In move (chess.legal_moves board) ->
                         chess.is_capture board move = false) :
  get_positional_tension board <= 0.6 /\
  (0.7 <? get_positional_tension board) = false.
Proof.
  assert (Hle : get_positional_tension board <= 0.6).
  { unfold get_positional_tension. rewrite Hcheck.
    assert (Hex : existsb (chess.is_capture board) (chess.legal_moves board) = false).
    { apply not_true_is_false. intro Hex. apply existsb_exists in Hex.
      destruct Hex as (move & Hin & Hcap). rewrite (Hquiet move Hin) in Hcap.
      discriminate. }
    rewrite Hex.
    assert (Hpc : inject_Z (Z.of_nat (List.length (chess.piece_map board))) <= 32).
    { change 32 with (inject_Z 32). rewrite <- Zle_Qle. lia. }
    set (pc := inject_Z _) in *.
    assert (H32 : pc / 32.0 <= 1) by (apply Qle_shift_div_r; lra).
    pose proof (min_le_l 0.3 (inject_Z (Z.of_nat (List.length (chess.legal_moves board))) / 50.0)) as Hmin.
    eapply Qle_trans; [apply min_le_r | lra]. }
  split; [exact Hle|]. apply ltb_false. lra.
Qed.

(** The state after a list of recorded moves, oldest first. *)
Lemma momentum_after (inputs : list (Board * string * Q)) (style : Style) :
  flow_momentum style <= 1 ->
  flow_momentum
    (fold_left (fun st i => update_liquid_momentum (fst (fst i)) (snd (fst i)) (snd i) st)
               inputs style) ==
    Qmin 1 (flow_momentum style + 0.06 * inject_Z (Z.of_nat (List.length inputs))).
Proof.
  revert style. induction inputs as [|i rest IH]; intros style Hm.
  - cbn [fold_left List.length]. change (inject_Z (Z.of_nat 0)) with 0.
    rewrite Q.min_r; lra.
  - cbn [fold_left]. rewrite IH.
    + cbn [update_liquid_momentum flow_momentum]. rewrite min_Qmin.
      cbn [List.length]. rewrite Nat2Z.inj_succ. unfold Z.succ. rewrite inject_Z_plus.
      pose proof (count_nonneg (List.length rest)) as Hn.
      set (n := inject_Z (Z.of_nat (List.length rest))) in *.
      change (inject_Z 1) with 1.
      destruct (Qlt_le_dec (flow_momentum style + 0.06) 1) as [Hlt | Hge].
      * rewrite (Q.min_r 1.0 (flow_momentum style + 0.06)) by lra.
        apply Q.min_compat; [reflexivity | ring].
      * rewrite (Q.min_l 1.0 (flow_momentum style + 0.06)) by lra.
        rewrite !Q.min_l; lra.
    + cbn [update_liquid_momentum flow_momentum].
      eapply Qle_trans; [apply min_le_l | lra].
Qed.

(** X4: from the initial state, after [n] recorded moves (of either
    side, on any boards, with any times) momentum is min(1, 0.06 n): it
    reaches 1.0 with the 17th move. *)
Theorem momentum_series (inputs : list (Board * string * Q)) :
  let style' :=
    fold_left (fun st i => update_liquid_momentum (fst (fst i)) (snd (fst i)) (snd i) st)
              inputs LIQUID_STYLE in
  flow_momentum style' ==
    Qmin 1 (0.06 * inject_Z (Z.of_nat (List.length inputs))) /\
  ((17 <= List.length inputs)%nat -> flow_momentum style' == 1).
Proof.
  cbn zeta. rewrite momentum_after by (simpl; lra).
  change (flow_momentum LIQUID_STYLE) with 0.0.
  split.
  - apply Q.min_compat; [reflexivity | ring].
  - intro Hlen.
    assert (Hn : 17 <= inject_Z (Z.of_nat (List.length inputs))).
    { change 17 with (inject_Z 17). rewrite <- Zle_Qle. lia. }
    rewrite Q.min_l; lra.
Qed.

(** X5: once momentum has reached 0.61 no update with a non-negative
    time leaves the calm phase in force: the new pressure is at least
    0.4. *)
Theorem calm_phase_ends (board : Board) (move_uci : string) (time_used : Q)
  (style : Style) (Hm : 0.61 <= flow_momentum style) (Ht : 0 <= time_used) :
  let style' := update_liquid_momentum board move_uci time_used style in
  0.4 <= pressure style' /\ phase style' <> calm_flow.
Proof.
  cbn [update_liquid_momentum phase pressure].
  pose proof (count_nonneg (List.length (chess.legal_moves board))) as Hn.
  set (count := inject_Z _) in *.
  assert (H20 : 0 <= count / 20.0) by (apply Qle_shift_div_l; lra).
  assert (H5 : 0 <= time_used / 5.0) by (apply Qle_shift_div_l; lra).
  assert (Heff : 0 <= Py.min 1.0 (time_used / 5.0)) by (apply min_glb; lra).
  assert (Hmom : 0.67 <= Py.min 1.0 (flow_momentum style + 0.06)) by (apply min_glb; lra).
  assert (Hp : 0.4 <= Py.min 1.0 (flow_momentum style + 0.06) * 0.6
                      + count / 20.0 * 0.3 + Py.min 1.0 (time_used / 5.0) * 0.1) by lra.
  split; [exact Hp|].
  unfold phase_of. apply ltb_false in Hp. rewrite Hp.
  destruct (_ <? 0.8); discriminate.
Qed.

End PressureMore.

Lemma quiet_position_tension_witness :
  get_positional_tension Fixture.opening <= 0.6 /\
  (0.7 <? get_positional_tension Fixture.opening) = false.
Proof.
  apply (quiet_position_tension Fixture.opening).
  - simpl. lia.
  - reflexivity.
  - intros move Hin. simpl in Hin.
    repeat (destruct Hin as [<- | Hin]; [reflexivity|]). contradiction.
Defined.

Lemma calm_phase_ends_witness :
  let style :=
    {| pressure := 0.5; flow_momentum := 0.66;
       time_awareness := "balanced"; phase := building_waves |} in
  let style' := update_liquid_momentum Fixture.opening "e2e4" 0 style in
  0.4 <= pressure style' /\ phase style' <> calm_flow.
Proof.
  intro style.
  apply (calm_phase_ends Fixture.opening "e2e4" 0 style).
  - simpl. lra.
  - lra.
Defined.

(** ** Time pressure and thinking time *)

Lemma budget_positive : 0 < GAME_DURATION / inject_Z 40.
Proof. reflexivity. Qed.

Lemma moves_remaining_positive (move_number : Z) :
  (40 - move_number <=? 0)%Z = false -> 0 < inject_Z (40 - move_number).
Proof.
  intro E. apply Z.leb_gt in E.
  change 0 with (inject_Z 0). rewrite <- Zlt_Qlt. exact E.
Qed.

Lemma max_mono_r (a x y : Q) : x <= y -> Py.max a x <= Py.max a y.
Proof. intro Hxy. unfold Py.max. compare_all; lra. Qed.

Lemma min_mono_r (a x y : Q) : x <= y -> Py.min a x <= Py.min a y.
Proof. intro Hxy. unfold Py.min. compare_all; lra. Qed.

(** X6: for a given move number, more remaining time never means more
    time pressure. *)
Theorem time_pressure_antitone (t1 t2 : Q) (move_number : Z) (Hle : t1 <= t2) :
  get_time_pressure t2 move_number <= get_time_pressure t1 move_number.
Proof.
  unfold get_time_pressure.
  destruct (40 - move_number <=? 0)%Z eqn:E; [lra|].
  pose proof (moves_remaining_positive move_number E) as Hd.
  set (d := inject_Z (40 - move_number)) in *.
  set (b := GAME_DURATION / inject_Z 40).
  assert (Hb : 0 < b) by apply budget_positive.
  assert (Hq : t1 / d / b <= t2 / d / b).
  { unfold Qdiv. apply Qmult_le_compat_r.
    - apply Qmult_le_compat_r; [exact Hle|]. apply Qlt_le_weak, Qinv_lt_0_compat, Hd.
    - apply Qlt_le_weak, Qinv_lt_0_compat, Hb. }
  set (q1 := t1 / d / b) in *. set (q2 := t2 / d / b) in *.
  apply min_mono_r, max_mono_r. lra.
Qed.

(** X7: before move 40 the time pressure is 1 - remaining / (15 s per
    move still expected), cut to [0, 1]; it is 0 exactly when at least
    15 s per expected move remain. *)
Theorem time_pressure_formula (time_remaining : Q) (move_number : Z)
  (Hmove : (move_number < 40)%Z) :
  let budget := 15 * inject_Z (40 - move_number) in
  get_time_pressure time_remaining move_number ==
    Qmin 1 (Qmax 0 (1 - time_remaining / budget)) /\
  (get_time_pressure time_remaining move_number == 0 <-> budget <= time_remaining).
Proof.
  cbn zeta. unfold get_time_pressure.
  assert (E : (40 - move_number <=? 0)%Z = false) by (apply Z.leb_gt; lia).
  rewrite E.
  pose proof (moves_remaining_positive move_number E) as Hd.
  set (d := inject_Z (40 - move_number)) in *.
  assert (Hq : time_remaining / d / (GAME_DURATION / inject_Z 40)
               == time_remaining / (15 * d)).
  { unfold GAME_DURATION. field. lra. }
  set (q := time_remaining / (15 * d)) in *.
  assert (Hmax : Py.max 0 (1.0 - time_remaining / d / (GAME_DURATION / inject_Z 40))
                 == Qmax 0 (1 - q)).
  { unfold Py.max. compare_all.
    - rewrite Q.max_r; lra.
    - rewrite Q.max_l; lra. }
  assert (Hval : Py.min 1.0 (Py.max 0 (1.0 - time_remaining / d / (GAME_DURATION / inject_Z 40)))
                 == Qmin 1 (Qmax 0 (1 - q))).
  { rewrite min_Qmin. apply Q.min_compat; [reflexivity | exact Hmax]. }
  split; [exact Hval|].
  rewrite Hval.
  assert (Hshift : 15 * d <= time_remaining <-> 1 <= q).
  { unfold q. split; intro Hx.
    - apply Qle_shift_div_l; lra.
    - assert (Hm : 1 * (15 * d) <= time_remaining / (15 * d) * (15 * d)).
      { apply Qmult_le_compat_r; lra. }
      assert (Hc : time_remaining / (15 * d) * (15 * d) == time_remaining)
        by (field; lra).
      lra. }
  rewrite Hshift.
  destruct (Qlt_le_dec (1 - q) 0) as [Hneg | Hpos].
  - rewrite (Q.max_l 0 (1 - q)) by lra. rewrite Q.min_r by lra. split; intro; lra.
  - rewrite (Q.max_r 0 (1 - q)) by lra.
    destruct (Qlt_le_dec (1 - q) 1) as [Hlt | Hge].
    + rewrite Q.min_r by lra. split; intro; lra.
    + rewrite Q.min_l by lra. split; intro; lra.
Qed.

Lemma time_pressure_antitone_witness :
  get_time_pressure 300 10 <= get_time_pressure 100 10.
Proof. apply (time_pressure_antitone 100 300 10). lra. Defined.

Lemma time_pressure_formula_witness :
  let budget := 15 * inject_Z (40 - 10) in
  get_time_pressure 300 10 == Qmin 1 (Qmax 0 (1 - 300 / budget)) /\
  (get_time_pressure 300 10 == 0 <-> budget <= 300).
Proof. apply (time_pressure_formula 300 10). lia. Defined.

Section ThinkingMore.

Context {Board : Type} `{chess.Rules Board}.

(** The base time that reaches the floor: at least 0.5 s, at most 6 s,
    at most 3 s under three minutes and 2 s under one minute. *)
Lemma adaptive_thinking_time_base (board : Board) (time_remaining pressure : Q)
  (g : Rng) :
  exists base g',
    adaptive_thinking_time board time_remaining pressure g =
      Some (Py.min (Py.max 0.3 base) (time_remaining * 0.1), g') /\
    0.5 <= base /\ base <= 6 /\
    (time_remaining < 180 -> base <= 3) /\
    (time_remaining < 60 -> base <= 2).
Proof.
  unfold adaptive_thinking_time, bind.
  pose proof (time_pressure_unit time_remaining (chess.fullmove_number board))
    as [Htp0 Htp1].
  set (tp := get_time_pressure _ _) in *.
  assert (Hfirst : exists x g1,
    (if pressure <? 0.3 then random.uniform 2.0 4.0
     else if pressure <? 0.7 then random.uniform 3.0 6.0
     else random.uniform 1.5 3.5) g = Some (x, g1) /\ 1.5 <= x /\ x <= 6).
  { destruct (pressure <? 0.3); [|destruct (pressure <? 0.7)].
    - destruct (uniform_range 2.0 4.0 g) as (x & Hx & Hr); [lra|].
      exists x. eexists. split; [exact Hx | lra].
    - destruct (uniform_range 3.0 6.0 g) as (x & Hx & Hr); [lra|].
      exists x. eexists. split; [exact Hx | lra].
    - destruct (uniform_range 1.5 3.5 g) as (x & Hx & Hr); [lra|].
      exists x. eexists. split; [exact Hx | lra]. }
  destruct Hfirst as (x & g1 & -> & Hx0 & Hx1).
  destruct (time_remaining <? 60) eqn:E60.
  - destruct (uniform_range 0.5 2.0 g1) as (y & -> & Hy); [lra|].
    exists y. eexists. split; [reflexivity|]. repeat split; intros; lra.
  - apply ltb_false in E60.
    destruct (time_remaining <? 180) eqn:E180.
    + destruct (uniform_range 1.0 3.0 g1) as (y & -> & Hy); [lra|].
      exists y. eexists. split; [reflexivity|]. repeat split; intros; lra.
    + apply ltb_false in E180.
      eexists. eexists. split; [reflexivity|].
      destruct (0.5 <? tp) eqn:Etp.
      * apply ltb_true in Etp. repeat split; intros; try lra; nra.
      * repeat split; intros; lra.
Qed.

(** X8: the floor of 0.3 s never changes the value (every base time is
    at least 0.5 s): the thinking time is min(base, 0.1 * remaining) for a
    base between 0.5 and 6 s, so it never exceeds 6 s, 3 s under three
    minutes and 2 s under one minute. *)
Theorem adaptive_thinking_time_cap (board : Board) (time_remaining pressure : Q)
  (g : Rng) :
  exists base t g',
    adaptive_thinking_time board time_remaining pressure g = Some (t, g') /\
    0.5 <= base /\ base <= 6 /\
    t == Qmin base (0.1 * time_remaining) /\
    t <= 6 /\
    (time_remaining < 180 -> t <= 3) /\
    (time_remaining < 60 -> t <= 2).
Proof.
  destruct (adaptive_thinking_time_base board time_remaining pressure g)
    as (base & g' & Heq & Hlo & Hhi & H180 & H60).
  exists base. eexists. exists g'. split; [exact Heq|].
  assert (Hmax : Py.max 0.3 base == base) by (apply max_id; lra).
  assert (Hle : Py.min (Py.max 0.3 base) (time_remaining * 0.1) <= base).
  { eapply Qle_trans; [apply min_le_l | lra]. }
  repeat split; try assumption.
  - rewrite min_Qmin. apply Q.min_compat; [exact Hmax | ring].
  - lra.
  - intro Hr. specialize (H180 Hr). lra.
  - intro Hr. specialize (H60 Hr). lra.
Qed.

(** X9: with a negative remaining time the thinking time is negative,
    0.1 * remaining, a length that [time.sleep] refuses. *)
Theorem adaptive_thinking_time_negative (board : Board)
  (time_remaining pressure : Q) (g : Rng) (w : World)
  (Hneg : time_remaining < 0) :
  exists g',
    adaptive_thinking_time board time_remaining pressure g =
      Some (time_remaining * 0.1, g') /\
    time_remaining * 0.1 < 0 /\
    sleep (time_remaining * 0.1) w = Crashed.
Proof.
  destruct (adaptive_thinking_time_base board time_remaining pressure g)
    as (base & g' & Heq & Hlo & _).
  exists g'. split; [|split].
  - rewrite Heq. f_equal. f_equal.
    pose proof (max_le_r 0.3 base) as Hmax.
    unfold Py.min. destruct (time_remaining * 0.1 <? Py.max 0.3 base) eqn:E.
    + reflexivity.
    + apply ltb_false in E. lra.
  - lra.
  - unfold sleep.
    assert (E : (time_remaining * 0.1 <? 0) = true) by (apply ltb_true; lra).
    rewrite E. reflexivity.
Qed.

End ThinkingMore.

Lemma adaptive_thinking_time_negative_witness :
  let w := {| rng := Fixture.zeros; now := fun _ => 0; stdin := [] |} in
  exists g',
    adaptive_thinking_time (Fixture.middlegame 30) (-5) 0.5 Fixture.zeros =
      Some (-5 * 0.1, g') /\
    -5 * 0.1 < 0 /\
    sleep (-5 * 0.1) w = Crashed.
Proof.
  intro w.
  apply (adaptive_thinking_time_negative (Fixture.middlegame 30) (-5) 0.5
           Fixture.zeros w).
  lra.
Defined.

(** ** Clock *)

(** X10: a tick moves time from one counter to the time stamp: the sum of
    both counters and the time stamp is the same after any list of ticks,
    whoever they are made for and whatever the readings are. *)
Theorem clock_total_kept (ticks : list (bool * Q)) (c : Clock) :
  let c' := fold_left (fun c t => snd (update_clock (fst t) (snd t) c)) ticks c in
  engine_time_remaining c' + opponent_time_remaining c' + last_move_time c' ==
  engine_time_remaining c + opponent_time_remaining c + last_move_time c.
Proof.
  cbn zeta. revert c. induction ticks as [|[is_engine_move reading] rest IH]; intro c.
  - reflexivity.
  - cbn [fold_left fst snd]. rewrite IH.
    destruct is_engine_move; cbn; ring.
Qed.

(** ** Move selection, all phases *)

Lemma firstn_incl {A : Type} (n : nat) (l : list A) (x : A) :
  In x (firstn n l) -> In x l.
Proof.
  intro Hin. rewrite <- (firstn_skipn n l). apply in_or_app. left. exact Hin.
Qed.

Lemma bisect_range (fuel : nat) (a : list Q) (x : Q) (lo hi : nat) :
  (lo <= hi)%nat ->
  (lo <= random.bisect fuel a x lo hi <= hi)%nat.
Proof.
  revert lo hi. induction fuel as [|fuel IH]; intros lo hi Hle; [simpl; lia|].
  cbn [random.bisect].
  destruct (lo <? hi)%nat eqn:E; [|lia].
  apply Nat.ltb_lt in E.
  assert (Hmid : (lo <= (lo + hi) / 2 < hi)%nat).
  { pose proof (Nat.div_mod_eq (lo + hi) 2) as Hdiv.
    pose proof (Nat.mod_upper_bound (lo + hi) 2) as Hmod. lia. }
  destruct (x <? nth ((lo + hi) / 2) a 0).
  - specialize (IH lo ((lo + hi) / 2)%nat). lia.
  - specialize (IH (S ((lo + hi) / 2)) hi). lia.
Qed.

Lemma accumulate_length (acc : Q) (weights : list Q) :
  List.length (random.accumulate acc weights) = List.length weights.
Proof.
  revert acc. induction weights as [|w rest IH]; intro acc; [reflexivity|].
  simpl. rewrite IH. reflexivity.
Qed.

Lemma accumulate_above (acc : Q) (weights : list Q) :
  Forall (fun w => 0 < w) weights ->
  Forall (fun total => acc < total) (random.accumulate acc weights).
Proof.
  revert acc. induction weights as [|w rest IH]; intros acc Hpos; [constructor|].
  inversion Hpos as [|? ? Hw Hrest]; subst. simpl. constructor; [lra|].
  eapply Forall_impl; [|apply (IH (acc + w) Hrest)].
  intros total Ht. simpl in Ht. lra.
Qed.

(** [random.choices] with positive weights returns a member of a
    non-empty population. *)
Lemma choices1_member {A : Type} (population : list A) (weights : list Q)
  (g : Rng) :
  population <> [] ->
  List.length weights = List.length population ->
  Forall (fun w => 0 < w) weights ->
  exists x, random.choices1 population weights g = Some (x, fun k => g (S k)) /\
            In x population.
Proof.
  intros Hne Hlen Hpos. unfold random.choices1.
  rewrite accumulate_length, Hlen, Nat.eqb_refl. cbn [negb].
  assert (Hn : (0 < List.length population)%nat).
  { destruct population; [congruence | simpl; lia]. }
  destruct (nth_error (random.accumulate 0 weights) (List.length population - 1))
    as [total|] eqn:Etotal.
  - assert (Htotal : 0 < total).
    { pose proof (accumulate_above 0 weights Hpos) as Hall.
      rewrite Forall_forall in Hall. apply Hall.
      eapply nth_error_In. exact Etotal. }
    apply leb_false in Htotal. rewrite Htotal.
    destruct (random_unit g) as (u & Hu & _).
    unfold bind. rewrite Hu.
    pose proof (bisect_range (List.length population)
                  (random.accumulate 0 weights) (u * total) 0
                  (List.length population - 1)) as Hidx.
    destruct (nth_error population _) as [x|] eqn:Ex.
    + exists x. split; [reflexivity|]. eapply nth_error_In. exact Ex.
    + apply nth_error_None in Ex. lia.
  - apply nth_error_None in Etotal. rewrite accumulate_length in Etotal. lia.
Qed.

Section SelectorMore.

Context {Board : Type} `{chess.Rules Board}.

Lemma is_calm_move_parsed (board : Board) (move_uci : string) :
  chess.from_uci move_uci <> None ->
  exists calm, is_calm_move board move_uci = Some calm.
Proof.
  intro Hparse. unfold is_calm_move.
  destruct (chess.from_uci move_uci) as [move|]; [|congruence].
  destruct (chess.is_check board || chess.is_capture board move);
    [eexists; reflexivity|].
  destruct (chess.piece_at board (chess.from_square move)); eexists; reflexivity.
Qed.

Lemma solid_moves_parsed (board : Board) (top_moves : list MoveInfo) :
  (forall move_info, In move_info top_moves ->
                     chess.from_uci (Move move_info) <> None) ->
  exists solid, solid_moves board top_moves = Some solid.
Proof.
  induction top_moves as [|move_info rest IH]; intro Hparse;
    [eexists; reflexivity|].
  simpl.
  destruct (is_calm_move_parsed board (Move move_info)) as (calm & ->).
  { apply Hparse. left. reflexivity. }
  destruct IH as (solid & ->).
  { intros mi Hin. apply Hparse. right. exact Hin. }
  eexists; reflexivity.
Qed.

Lemma solid_moves_sound (board : Board) (top_moves solid : list MoveInfo) :
  solid_moves board top_moves = Some solid ->
  forall move_info, In move_info solid ->
    In move_info top_moves /\ is_calm_move board (Move move_info) = Some true.
Proof.
  revert solid. induction top_moves as [|first rest IH]; intros solid Hsolid mi Hin.
  - injection Hsolid as <-. contradiction.
  - simpl in Hsolid.
    destruct (is_calm_move board (Move first)) as [calm|] eqn:Ecalm; [|discriminate].
    destruct (solid_moves board rest) as [solid'|]; [|discriminate].
    injection Hsolid as <-.
    destruct calm.
    + destruct Hin as [<- | Hin].
      * split; [left; reflexivity | exact Ecalm].
      * destruct (IH solid' eq_refl mi Hin) as [Hmem Hcalm].
        split; [right; exact Hmem | exact Hcalm].
    + destruct (IH solid' eq_refl mi Hin) as [Hmem Hcalm].
      split; [right; exact Hmem | exact Hcalm].
Qed.

(** X11: in the calm phase, when there is a solid candidate and the
    first draw is below the float of 0.7, the answer is one of the first
    three solid candidates: a candidate of the list that is a calm move. *)
Theorem calm_prefers_solid (board : Board) (top_moves solid : list MoveInfo)
  (time_pressure u : Q) (g g1 : Rng)
  (Hsolid : solid_moves board top_moves = Some solid)
  (Hne : solid <> [])
  (Hu : random.random g = Some (u, g1))
  (Hlt : u < Py.float_0_7) :
  exists chosen g',
    calm_flow_moves board top_moves time_pressure g = Some (Move chosen, g') /\
    In chosen (firstn 3 solid) /\
    In chosen top_moves /\
    is_calm_move board (Move chosen) = Some true.
Proof.
  destruct solid as [|s0 solid']; [congruence|].
  destruct (choice_in (firstn 3 (s0 :: solid')) g1) as (x & Hx & Hin);
    [discriminate|].
  exists x. eexists.
  assert (Hmem : In x (s0 :: solid')) by (eapply firstn_incl; exact Hin).
  destruct (solid_moves_sound board top_moves (s0 :: solid') Hsolid x Hmem)
    as [Htop Hcalm].
  split; [|repeat split; assumption].
  unfold calm_flow_moves. rewrite Hsolid. cbn [lift].
  unfold bind at 1. cbn [ret].
  unfold bind at 1 2. rewrite Hu. cbn [ret].
  apply ltb_true in Hlt. rewrite Hlt.
  unfold bind. rewrite Hx. reflexivity.
Qed.

(** [calm_flow_moves] returns a candidate whenever the loop over the
    candidates ends. *)
Lemma calm_member (board : Board) (top_moves solid : list MoveInfo)
  (time_pressure : Q) (g : Rng) :
  top_moves <> [] ->
  solid_moves board top_moves = Some solid ->
  exists chosen g',
    calm_flow_moves board top_moves time_pressure g = Some (Move chosen, g') /\
    In chosen top_moves.
Proof.
  intros Hne Hsolid.
  destruct top_moves as [|top rest] eqn:Etop; [congruence|]. rewrite <- Etop in *.
  assert (Htop : nth_error top_moves 0 = Some top) by (rewrite Etop; reflexivity).
  unfold calm_flow_moves. rewrite Hsolid. cbn [lift].
  unfold bind at 1. cbn [ret].
  destruct solid as [|s0 solid'].
  - destruct (noise_branch top_moves top time_pressure g Htop)
      as (v & chosen & g' & _ & Hrun & Hin & _).
    exists chosen, g'. split; [|exact Hin].
    unfold bind at 1 2. cbn [ret]. unfold bind in Hrun. unfold bind.
    rewrite Hrun. reflexivity.
  - destruct (random_unit g) as (u & Hu & _).
    unfold bind at 1 2. rewrite Hu. cbn [ret].
    destruct (u <? Py.float_0_7).
    + destruct (choice_in (firstn 3 (s0 :: solid')) (fun k => g (S k)))
        as (x & Hx & Hin); [discriminate|].
      exists x. eexists. split.
      * unfold bind. rewrite Hx. reflexivity.
      * apply (solid_moves_sound board top_moves (s0 :: solid') Hsolid x).
        eapply firstn_incl. exact Hin.
    + destruct (noise_branch top_moves top time_pressure (fun k => g (S k)) Htop)
        as (v & chosen & g' & _ & Hrun & Hin & _).
      exists chosen, g'. split; [|exact Hin].
      unfold bind in Hrun. unfold bind. rewrite Hrun. reflexivity.
Qed.

Lemma slice_1_3_first_three {A : Type} (l : list A) (x : A) :
  In x (Py.slice 1 3 l) -> In x (firstn 3 l).
Proof.
  destruct l as [|a rest]; [intro Hin; exact Hin|].
  unfold Py.slice. cbn [skipn Nat.sub firstn]. intro Hin. right. exact Hin.
Qed.

(** The run of [crushing_tide_moves] on a non-empty list. *)
Lemma crushing_run (board : Board) (top : MoveInfo) (rest : list MoveInfo)
  (time_pressure : Q) (g : Rng) :
  exists u chosen g',
    random.random g = Some (u, fun k => g (S k)) /\
    crushing_tide_moves board (top :: rest) time_pressure g =
      Some (Move chosen, g') /\
    In chosen (firstn 3 (top :: rest)) /\
    (u < 0.8 - time_pressure * 0.3 -> chosen = top) /\
    ((List.length (top :: rest) <= 2)%nat -> chosen = top) /\
    (0.8 - time_pressure * 0.3 <= u -> (3 <= List.length (top :: rest))%nat ->
     In chosen (Py.slice 1 3 (top :: rest))).
Proof.
  destruct (random_unit g) as (u & Hu & _).
  exists u. unfold crushing_tide_moves, bind. rewrite Hu.
  destruct (u <? 0.8 - time_pressure * 0.3) eqn:Eu.
  - apply ltb_true in Eu. exists top. eexists.
    repeat split; try reflexivity; try (intros; lra).
    left. reflexivity.
  - apply ltb_false in Eu.
    destruct (2 <? List.length (top :: rest))%nat eqn:Elen.
    + apply Nat.ltb_lt in Elen.
      destruct (choice_in (Py.slice 1 3 (top :: rest)) (fun k => g (S k)))
        as (x & Hx & Hin).
      { destruct rest as [|b rest']; [simpl in Elen; lia|].
        unfold Py.slice. simpl. discriminate. }
      exists x. eexists. rewrite Hx.
      repeat split; try reflexivity; try (intros; lra || lia || assumption).
      apply slice_1_3_first_three. exact Hin.
    + apply Nat.ltb_ge in Elen. exists top. eexists.
      repeat split; try reflexivity; try (intros; lra || lia).
      left. reflexivity.
Qed.


End SelectorMore.

Section BuildingWaves.

Context {Board : Type} `{chess.Rules Board}.

Lemma pressure_weight_positive (board : Board) (move_uci : string) (rank : nat) :
  chess.from_uci move_uci <> None ->
  exists weight,
    calculate_pressure_weight board move_uci rank = Some weight /\ 0 < weight.
Proof.
  intro Hparse. unfold calculate_pressure_weight.
  destruct (chess.from_uci move_uci) as [move|]; [|congruence].
  eexists. split; [reflexivity|].
  assert (Hbase : 0 < 1.0 / inject_Z (Z.of_nat rank + 1)).
  { apply Qlt_shift_div_l; [|lra].
    change 0 with (inject_Z 0). rewrite <- Zlt_Qlt. lia. }
  set (base := 1.0 / inject_Z (Z.of_nat rank + 1)) in *.
  destruct (chess.is_check board), (chess.is_capture board move),
    (attacks_important_square board move); nra.
Qed.

Lemma weighted_moves_positive (board : Board) (top_moves : list MoveInfo)
  (time_pressure : Q) (i : nat) :
  time_pressure < 5 ->
  (forall move_info, In move_info top_moves ->
                     chess.from_uci (Move move_info) <> None) ->
  exists weighted,
    weighted_moves board i top_moves time_pressure = Some weighted /\
    map fst weighted = top_moves /\
    Forall (fun w => 0 < w) (map snd weighted).
Proof.
  intros Htp. revert i.
  induction top_moves as [|move_info rest IH]; intros i Hparse.
  - exists []. repeat split. constructor.
  - cbn [weighted_moves].
    destruct (pressure_weight_positive board (Move move_info) i)
      as (weight & -> & Hw).
    { apply Hparse. left. reflexivity. }
    destruct (IH (S i)) as (weighted & -> & Hfst & Hsnd).
    { intros mi Hin. apply Hparse. right. exact Hin. }
    eexists. split; [reflexivity|]. cbn [map fst snd]. split.
    + rewrite Hfst. reflexivity.
    + constructor; [nra | exact Hsnd].
Qed.

(** X13: in the building phase, with candidates that parse and a time
    pressure below 5 (it is at most 1 in the program), every weight is
    positive, so [random.choices] raises nothing and the answer is a
    candidate of the list. *)
Theorem building_waves_member (board : Board) (top_moves : list MoveInfo)
  (time_pressure : Q) (g : Rng)
  (Hne : top_moves <> [])
  (Htp : time_pressure < 5)
  (Hparse : forall move_info, In move_info top_moves ->
                              chess.from_uci (Move move_info) <> None) :
  exists weighted chosen,
    weighted_moves board 0 top_moves time_pressure = Some weighted /\
    Forall (fun w => 0 < w) (map snd weighted) /\
    building_waves_moves board top_moves time_pressure g =
      Some (Move chosen, fun k => g (S k)) /\
    In chosen top_moves.
Proof.
  destruct (weighted_moves_positive board top_moves time_pressure 0 Htp Hparse)
    as (weighted & Hw & Hfst & Hsnd).
  destruct (choices1_member (map fst weighted) (map snd weighted) g)
    as (x & Hx & Hin).
  { rewrite Hfst. exact Hne. }
  { rewrite !length_map. reflexivity. }
  { exact Hsnd. }
  exists weighted, x. split; [exact Hw|]. split; [exact Hsnd|].
  rewrite Hfst in Hin. split; [|exact Hin].
  unfold building_waves_moves. rewrite Hw. cbn [lift].
  unfold bind at 1. cbn [ret].
  destruct weighted as [|w0 weighted'].
  - simpl in Hfst. congruence.
  - unfold bind. rewrite Hx. reflexivity.
Qed.

End BuildingWaves.

Section SelectionTotal.

Context {Board : Type} `{chess.Rules Board}.
Context {Stockfish : Type} `{Engine Stockfish}.

(** Every phase answers with a candidate of a non-empty list that
    parses. *)
Lemma time_aware_selection_member (board : Board) (top_moves : list MoveInfo)
  (time_remaining time_pressure : Q) (style : Style) (g : Rng) :
  top_moves <> [] ->
  time_pressure < 5 ->
  (forall move_info, In move_info top_moves ->
                     chess.from_uci (Move move_info) <> None) ->
  exists chosen g',
    time_aware_selection board top_moves time_remaining time_pressure style g =
      Some (Move chosen, g') /\
    In chosen top_moves.
Proof.
  intros Hne Htp Hparse. unfold time_aware_selection.
  destruct (time_remaining <? 30).
  - destruct top_moves as [|top rest]; [congruence|].
    destruct (blitz_mode_moves_run top rest g) as (u & _ & _ & _ & Hrun).
    rewrite Hrun. eexists. eexists. split; [reflexivity|].
    destruct (u <? 0.8); [left; reflexivity|].
    destruct rest as [|second rest']; [left; reflexivity|].
    right. left. reflexivity.
  - destruct (phase style).
    + destruct (solid_moves_parsed board top_moves Hparse) as (solid & Hsolid).
      apply (calm_member board top_moves solid time_pressure g Hne Hsolid).
    + destruct (weighted_moves_positive board top_moves time_pressure 0 Htp Hparse)
        as (weighted & Hw & Hfst & Hsnd).
      destruct (choices1_member (map fst weighted) (map snd weighted) g)
        as (x & Hx & Hin).
      { rewrite Hfst. exact Hne. }
      { rewrite !length_map. reflexivity. }
      { exact Hsnd. }
      exists x. eexists. rewrite Hfst in Hin. split; [|exact Hin].
      unfold building_waves_moves. rewrite Hw. cbn [lift].
      unfold bind at 1. cbn [ret].
      destruct weighted as [|w0 weighted'].
      * simpl in Hfst. congruence.
      * unfold bind. rewrite Hx. reflexivity.
    + destruct top_moves as [|top rest]; [congruence|].
      destruct (crushing_run board top rest time_pressure g)
        as (u & chosen & g' & _ & Hrun & Hin & _).
      exists chosen, g'. split; [exact Hrun|].
      eapply firstn_incl. exact Hin.
Qed.

(** X14: whatever the phase and the clock, when the engine's candidates
    parse the selector raises nothing; it sets a skill level from 16 to 20
    (at most 18 under a time pressure above 0.7, at least 18 otherwise),
    asks for 3, 4 or 6 candidates, and answers [None] exactly when the
    engine offers none, a candidate of the engine's list otherwise. *)
Theorem selection_returns_candidate (board : Board) (sf : Stockfish)
  (time_remaining : Q) (style : Style) (g : Rng)
  (Hparse : forall k n move_info,
      In move_info (get_top_moves (set_skill_level sf k) n) ->
      chess.from_uci (Move move_info) <> None) :
  exists skill top_n answer g',
    liquid_style_move_selection board sf time_remaining style g =
      Some ((answer, set_skill_level sf skill), g') /\
    (16 <= skill <= 20)%Z /\
    (if 0.7 <? get_time_pressure time_remaining (chess.fullmove_number board)
     then (skill <= 18)%Z else (18 <= skill)%Z) /\
    In top_n [3; 4; 6]%nat /\
    match answer with
    | None => get_top_moves (set_skill_level sf skill) top_n = []
    | Some move =>
        exists move_info,
          In move_info (get_top_moves (set_skill_level sf skill) top_n) /\
          move = Move move_info
    end.
Proof.
  unfold liquid_style_move_selection.
  pose proof (time_pressure_unit time_remaining (chess.fullmove_number board))
    as [Htp0 Htp1].
  set (tp := get_time_pressure _ _) in *.
  set (top_n := if 0.8 <? tp then 3%nat
                else if 0.7 <? get_positional_tension board then 6%nat
                else 4%nat).
  assert (Hn : In top_n [3; 4; 6]%nat).
  { unfold top_n. compare_all; simpl; auto. }
  assert (Hskill : exists skill,
    (if 0.7 <? tp then random.randint 16 18 else random.randint 18 20) g =
      Some (skill, fun i => g (S i)) /\ (16 <= skill <= 20)%Z /\
    (if 0.7 <? tp then (skill <= 18)%Z else (18 <= skill)%Z)).
  { destruct (0.7 <? tp).
    - destruct (randint_run 16 18 g) as (k & Hk & Hr); [lia|].
      exists k. split; [exact Hk | lia].
    - destruct (randint_run 18 20 g) as (k & Hk & Hr); [lia|].
      exists k. split; [exact Hk | lia]. }
  destruct Hskill as (skill & Hdraw & Hrange & Hside).
  exists skill, top_n.
  cbn zeta. unfold bind at 1. rewrite Hdraw.
  destruct (get_top_moves (set_skill_level sf skill) top_n) as [|top rest] eqn:Etop.
  - exists None. eexists. repeat split; try assumption; lia.
  - destruct (time_aware_selection_member board (top :: rest) time_remaining tp
                style (fun i => g (S i)))
      as (chosen & g' & Hrun & Hin).
    { discriminate. }
    { lra. }
    { intros mi Hmi. apply (Hparse skill top_n).
      rewrite Etop. exact Hmi. }
    exists (Some (Move chosen)), g'.
    unfold bind. rewrite Hrun.
    repeat split; try assumption; try lia.
    exists chosen. split; [exact Hin | reflexivity].
Qed.

End SelectionTotal.

Lemma fixture_candidates_parse (move_info : MoveInfo) :
  In move_info Fixture.candidates -> chess.from_uci (Move move_info) <> None.
Proof.
  intro Hin. simpl in Hin.
  repeat (destruct Hin as [<- | Hin]; [discriminate|]). contradiction.
Qed.

Lemma calm_prefers_solid_witness :
  exists chosen g',
    calm_flow_moves Fixture.opening Fixture.opening_candidates 0.5 Fixture.zeros =
      Some (Move chosen, g') /\
    In chosen (firstn 3 [Fixture.info "e2e4"; Fixture.info "g1f3"]) /\
    In chosen Fixture.opening_candidates /\
    is_calm_move Fixture.opening (Move chosen) = Some true.
Proof.
  apply (calm_prefers_solid Fixture.opening Fixture.opening_candidates
           [Fixture.info "e2e4"; Fixture.info "g1f3"] 0.5
           (0 # 2 ^ 53) Fixture.zeros (fun k => Fixture.zeros (S k))).
  - reflexivity.
  - discriminate.
  - reflexivity.
  - reflexivity.
Defined.


Lemma building_waves_member_witness :
  exists weighted chosen,
    weighted_moves (Fixture.middlegame 30) 0 Fixture.candidates 0.5 = Some weighted /\
    Forall (fun w => 0 < w) (map snd weighted) /\
    building_waves_moves (Fixture.middlegame 30) Fixture.candidates 0.5
      Fixture.top_word = Some (Move chosen, fun k => Fixture.top_word (S k)) /\
    In chosen Fixture.candidates.
Proof.
  apply (building_waves_member (Fixture.middlegame 30) Fixture.candidates 0.5
           Fixture.top_word).
  - discriminate.
  - lra.
  - exact fixture_candidates_parse.
Defined.

Lemma selection_returns_candidate_witness :
  let style :=
    {| pressure := 0.5; flow_momentum := 0.3;
       time_awareness := "balanced"; phase := building_waves |} in
  exists skill top_n answer g',
    liquid_style_move_selection (Fixture.middlegame 30) Fixture.candidates 400
      style Fixture.top_word =
      Some ((answer, set_skill_level Fixture.candidates skill), g') /\
    (16 <= skill <= 20)%Z /\
    (if 0.7 <? get_time_pressure 400
                 (chess.fullmove_number (Fixture.middlegame 30))
     then (skill <= 18)%Z else (18 <= skill)%Z) /\
    In top_n [3; 4; 6]%nat /\
    match answer with
    | None => get_top_moves (set_skill_level Fixture.candidates skill) top_n = []
    | Some move =>
        exists move_info,
          In move_info (get_top_moves (set_skill_level Fixture.candidates skill) top_n) /\
          move = Move move_info
    end.
Proof.
  intro style.
  apply (selection_returns_candidate (Fixture.middlegame 30) Fixture.candidates
           400 style Fixture.top_word).
  intros k n move_info Hin. apply fixture_candidates_parse.
  eapply firstn_incl. exact Hin.
Defined.

(** ** The opponent block *)

Section OpponentBlock.

Context {Board : Type} `{chess.Rules Board}.
Context {Stockfish : Type} `{Engine Stockfish}.

Lemma opponent_turn_rejected (line : string) (lines : list string)
  (now : nat -> Q) (g : Game Board Stockfish) :
  rejected g line ->
  opponent_turn (line :: lines) now g = opponent_turn lines now g.
Proof.
  intros [Hquit Hmove]. cbn [opponent_turn].
  apply String.eqb_neq in Hquit. rewrite Hquit.
  destruct (chess.from_uci line) as [move_obj|]; [|reflexivity].
  rewrite Hmove. reflexivity.
Qed.

Lemma opponent_turn_skips (bad rest : list string) (now : nat -> Q)
  (g : Game Board Stockfish) :
  Forall (rejected g) bad ->
  opponent_turn (bad ++ rest) now g = opponent_turn rest now g.
Proof.
  intro Hbad. induction Hbad as [|line bad Hline Hbad IH]; [reflexivity|].
  cbn [app]. rewrite opponent_turn_rejected by exact Hline. exact IH.
Qed.

(** X15: lines that are malformed or illegal change nothing, however many
    there are: the block goes on as if they had not been typed. After
    them the quit word, in any letter case, ends the process, and the end
    of the input raises. *)
Theorem opponent_skips_rejected (bad rest : list string) (now : nat -> Q)
  (g : Game Board Stockfish) (Hbad : Forall (rejected g) bad) :
  opponent_turn (bad ++ rest) now g = opponent_turn rest now g /\
  opponent_turn bad now g = Crashed /\
  (forall word, lower word = "quit"%string ->
                opponent_turn (bad ++ word :: rest) now g = Exited).
Proof.
  split; [apply opponent_turn_skips; exact Hbad|]. split.
  - rewrite <- (app_nil_r bad). rewrite opponent_turn_skips by exact Hbad.
    reflexivity.
  - intros word Hword. rewrite opponent_turn_skips by exact Hbad.
    cbn [opponent_turn]. rewrite Hword. reflexivity.
Qed.

(** X16: after any number of rejected lines, a legal move that the board
    accepts is applied once: one reading of the wall clock is taken and
    charged to the engine's counter, the board and the engine get the
    move, the style is updated with a time of 0, and the lines behind it
    are left unread. *)
Theorem opponent_applies_first_legal (bad rest : list string) (line : string)
  (move_obj : chess.Move) (b : Board) (now : nat -> Q) (g : Game Board Stockfish)
  (Hbad : Forall (rejected g) bad)
  (Hquit : lower line <> "quit"%string)
  (Hparse : chess.from_uci line = Some move_obj)
  (Hlegal : chess.is_legal (board g) move_obj = true)
  (Hpush : chess.push_uci (board g) line = Some b) :
  opponent_turn (bad ++ line :: rest) now g =
    Ok ({| board := b;
           sf := make_moves_from_current_position (sf g) [line];
           clock :=
             {| engine_time_remaining :=
                  engine_time_remaining (clock g) - (now O - last_move_time (clock g));
                opponent_time_remaining := opponent_time_remaining (clock g);
                last_move_time := now O |};
           style := update_liquid_momentum b line 0 (style g) |},
        (rest, fun k => now (S k))).
Proof.
  rewrite opponent_turn_skips by exact Hbad.
  cbn [opponent_turn].
  apply String.eqb_neq in Hquit. rewrite Hquit, Hparse, Hlegal.
  unfold make_move. cbn [board with_clock]. rewrite Hpush. reflexivity.
Qed.

End OpponentBlock.

(** ** The game loop *)

Lemma tick_total (is_engine_move : bool) (reading : Q) (c : Clock) :
  let c' := snd (update_clock is_engine_move reading c) in
  engine_time_remaining c' + opponent_time_remaining c' + last_move_time c' ==
  engine_time_remaining c + opponent_time_remaining c + last_move_time c.
Proof. destruct is_engine_move; cbn; ring. Qed.

Section LoopFacts.

Context {Board : Type} `{chess.Rules Board}.
Context {Stockfish : Type} `{Engine Stockfish}.

(** What the engine block does to the globals and to the input. *)
Lemma engine_turn_effect (g : Game Board Stockfish) (w : World) :
  match engine_turn g w with
  | Ok ((continue, g'), w') =>
      stdin w' = stdin w /\
      if continue : bool then
        exists reading best_move thinking_time,
          clock g' = snd (update_clock true reading (clock g)) /\
          style g' =
            update_liquid_momentum (board g') best_move thinking_time (style g)
      else board g' = board g /\ clock g' = clock g /\ style g' = style g
  | Crashed => True
  | Exited | OutOfFuel => False
  end.
Proof.
  unfold engine_turn, io_bind, rand.
  destruct (liquid_style_move_selection _ _ _ _ _) as [[[best sf'] g1]|];
    [|exact I].
  cbn [fst snd].
  destruct best as [best_move|]; [|cbn; repeat split].
  destruct (best_move =? "")%string; [cbn; repeat split|].
  cbn [rng now stdin board clock style with_sf].
  destruct (adaptive_thinking_time _ _ _ _) as [[thinking_time g2]|]; [|exact I].
  unfold sleep. destruct (thinking_time <? 0); [exact I|].
  unfold datetime_now. cbn [rng now stdin].
  unfold make_move. cbn [board with_clock].
  destruct (chess.push_uci _ _); [|exact I].
  cbn. split; [reflexivity|]. eexists. eexists. eexists. split; reflexivity.
Qed.

(** What the opponent block does when it ends with a move: it reads at
    least one line, ticks for the opponent once or more, and records one
    move with a time of 0. *)
Lemma opponent_turn_effect (lines : list string) :
  forall (now : nat -> Q) (g g' : Game Board Stockfish) (lines' : list string)
         (now' : nat -> Q),
    opponent_turn lines now g = Ok (g', (lines', now')) ->
    (List.length lines' < List.length lines)%nat /\
    exists readings opp_move,
      clock g' =
        fold_left (fun c t => snd (update_clock false t c)) readings (clock g) /\
      style g' = update_liquid_momentum (board g') opp_move 0 (style g).
Proof.
  induction lines as [|line lines IH]; intros now g g' lines' now' Hrun;
    [discriminate|].
  cbn [opponent_turn] in Hrun.
  destruct (lower line =? "quit")%string; [discriminate|].
  destruct (chess.from_uci line) as [move_obj|].
  - destruct (chess.is_legal _ _).
    + unfold make_move in Hrun. cbn [board with_clock] in Hrun.
      destruct (chess.push_uci (board g) line) as [b|].
      * injection Hrun as <- <- <-. split; [simpl; lia|].
        exists [now O], line. split; reflexivity.
      * apply IH in Hrun. destruct Hrun as (Hlen & readings & opp_move & Hc & Hs).
        split; [simpl; lia|].
        exists (now O :: readings), opp_move. split; assumption.
    + apply IH in Hrun. destruct Hrun as (Hlen & Hrest).
      split; [simpl; lia | exact Hrest].
  - apply IH in Hrun. destruct Hrun as (Hlen & Hrest).
    split; [simpl; lia | exact Hrest].
Qed.

Lemma opponent_turn_no_fuel (lines : list string) :
  forall (now : nat -> Q) (g : Game Board Stockfish),
    opponent_turn lines now g <> OutOfFuel.
Proof.
  induction lines as [|line lines IH]; intros now g; [discriminate|].
  cbn [opponent_turn].
  destruct (lower line =? "quit")%string; [discriminate|].
  destruct (chess.from_uci line); [|apply IH].
  destruct (chess.is_legal _ _); [|apply IH].
  destruct (make_move _ _); [discriminate | apply IH].
Qed.

Lemma opponent_move_effect (g : Game Board Stockfish) (w : World) :
  match opponent_move g w with
  | Ok (g', w') =>
      (List.length (stdin w') < List.length (stdin w))%nat /\
      exists readings opp_move,
        clock g' =
          fold_left (fun c t => snd (update_clock false t c)) readings (clock g) /\
        style g' = update_liquid_momentum (board g') opp_move 0 (style g)
  | OutOfFuel => False
  | Exited | Crashed => True
  end.
Proof.
  unfold opponent_move.
  pose proof (opponent_turn_effect (stdin w) (now w) g) as Heff.
  pose proof (opponent_turn_no_fuel (stdin w) (now w) g) as Hfuel.
  destruct (opponent_turn (stdin w) (now w) g) as [[g' [lines' now']]| | |];
    try exact I; [|congruence].
  apply (Heff g' lines' now' eq_refl).
Qed.

Lemma white_loop_enough_fuel (fuel : nat) :
  forall (g : Game Board Stockfish) (w : World),
    (List.length (stdin w) < fuel)%nat -> white_loop fuel g w <> OutOfFuel.
Proof.
  induction fuel as [|fuel IH]; intros g w Hfuel; [lia|].
  rewrite white_loop_step. destruct (loop_condition g); [|discriminate].
  unfold io_bind.
  pose proof (engine_turn_effect g w) as Heng.
  destruct (engine_turn g w) as [[[continue g1] w1]| | |];
    try contradiction; [|discriminate].
  destruct Heng as [Hin _]. cbn [fst snd].
  destruct (negb continue); [discriminate|].
  destruct (_ || _); [discriminate|].
  pose proof (opponent_move_effect g1 w1) as Hopp.
  destruct (opponent_move g1 w1) as [[g2 w2]| | |];
    try contradiction; try discriminate.
  destruct Hopp as [Hlen _]. rewrite Hin in Hlen. apply IH. lia.
Qed.

Lemma black_loop_enough_fuel (fuel : nat) :
  forall (g : Game Board Stockfish) (w : World),
    (List.length (stdin w) < fuel)%nat -> black_loop fuel g w <> OutOfFuel.
Proof.
  induction fuel as [|fuel IH]; intros g w Hfuel; [lia|].
  rewrite black_loop_step. destruct (loop_condition g); [|discriminate].
  unfold io_bind.
  pose proof (opponent_move_effect g w) as Hopp.
  destruct (opponent_move g w) as [[g1 w1]| | |];
    try contradiction; try discriminate.
  destruct Hopp as [Hlen _].
  destruct (_ || _); [discriminate|].
  pose proof (engine_turn_effect g1 w1) as Heng.
  destruct (engine_turn g1 w1) as [[[continue g2] w2]| | |];
    try contradiction; [|discriminate].
  destruct Heng as [Hin _]. cbn [fst snd].
  destruct (negb continue); [discriminate|].
  apply IH. rewrite Hin. lia.
Qed.

Lemma white_loop_more_fuel (fuel : nat) :
  forall (g : Game Board Stockfish) (w : World),
    white_loop fuel g w <> OutOfFuel ->
    white_loop (S fuel) g w = white_loop fuel g w.
Proof.
  induction fuel as [|fuel IH]; intros g w Hrun; [simpl in Hrun; congruence|].
  rewrite (white_loop_step (S fuel)). rewrite white_loop_step in Hrun |- *.
  destruct (loop_condition g); [|reflexivity].
  unfold io_bind in *.
  destruct (engine_turn g w) as [[[continue g1] w1]| | |]; try reflexivity.
  cbn [fst snd] in *.
  destruct (negb continue); [reflexivity|].
  destruct (_ || _); [reflexivity|].
  destruct (opponent_move g1 w1) as [[g2 w2]| | |]; try reflexivity.
  apply IH. exact Hrun.
Qed.

Lemma black_loop_more_fuel (fuel : nat) :
  forall (g : Game Board Stockfish) (w : World),
    black_loop fuel g w <> OutOfFuel ->
    black_loop (S fuel) g w = black_loop fuel g w.
Proof.
  induction fuel as [|fuel IH]; intros g w Hrun; [simpl in Hrun; congruence|].
  rewrite (black_loop_step (S fuel)). rewrite black_loop_step in Hrun |- *.
  destruct (loop_condition g); [|reflexivity].
  unfold io_bind in *.
  destruct (opponent_move g w) as [[g1 w1]| | |]; try reflexivity.
  destruct (_ || _); [reflexivity|].
  destruct (engine_turn g1 w1) as [[[continue g2] w2]| | |]; try reflexivity.
  cbn [fst snd] in *.
  destruct (negb continue); [reflexivity|].
  apply IH. exact Hrun.
Qed.

(** X17: the game ends. Every iteration that goes on reads at least one
    line, so with more fuel than there are lines to read the run does not
    stop for lack of fuel, and any further fuel gives the same result. *)
Theorem play_terminates (player_is_white : bool) (fuel extra : nat)
  (g : Game Board Stockfish) (w : World)
  (Hfuel : (List.length (stdin w) < fuel)%nat) :
  play player_is_white fuel g w <> OutOfFuel /\
  play player_is_white (fuel + extra) g w = play player_is_white fuel g w.
Proof.
  assert (Hloop :
    (if player_is_white then white_loop fuel g else black_loop fuel g) w
    <> OutOfFuel).
  { destruct player_is_white;
      [apply white_loop_enough_fuel | apply black_loop_enough_fuel]; exact Hfuel. }
  split.
  - unfold play, io_bind.
    destruct ((if player_is_white then white_loop fuel g else black_loop fuel g) w)
      as [[g' w']| | |]; try discriminate. congruence.
  - induction extra as [|extra IH]; [rewrite Nat.add_0_r; reflexivity|].
    rewrite Nat.add_succ_r. rewrite <- IH.
    assert (Hloop' :
      (if player_is_white then white_loop (fuel + extra) g
       else black_loop (fuel + extra) g) w <> OutOfFuel).
    { destruct player_is_white;
        [apply white_loop_enough_fuel | apply black_loop_enough_fuel]; lia. }
    unfold play, io_bind.
    destruct player_is_white.
    + rewrite white_loop_more_fuel by exact Hloop'. reflexivity.
    + rewrite black_loop_more_fuel by exact Hloop'. reflexivity.
Qed.

End LoopFacts.

Section LoopInvariant.

Context {Board : Type} `{chess.Rules Board}.
Context {Stockfish : Type} `{Engine Stockfish}.

Variable R : Game Board Stockfish -> Game Board Stockfish -> Prop.

Hypothesis R_refl : forall g, R g g.
Hypothesis R_trans : forall g1 g2 g3, R g1 g2 -> R g2 g3 -> R g1 g3.
Hypothesis R_engine : forall g w continue g' w',
  engine_turn g w = Ok ((continue, g'), w') -> R g g'.
Hypothesis R_opponent : forall g w g' w',
  opponent_move g w = Ok (g', w') -> R g g'.

Lemma white_loop_keeps (fuel : nat) :
  forall g w g' w', white_loop fuel g w = Ok (g', w') -> R g g'.
Proof.
  induction fuel as [|fuel IH]; intros g w g' w' Hrun; [discriminate|].
  rewrite white_loop_step in Hrun.
  destruct (loop_condition g); [|injection Hrun as <- _; apply R_refl].
  unfold io_bind in Hrun.
  destruct (engine_turn g w) as [[[continue g1] w1]| | |] eqn:Eeng;
    try discriminate.
  apply R_engine in Eeng. cbn [fst snd] in Hrun.
  destruct (negb continue); [injection Hrun as <- _; exact Eeng|].
  destruct (_ || _); [injection Hrun as <- _; exact Eeng|].
  destruct (opponent_move g1 w1) as [[g2 w2]| | |] eqn:Eopp; try discriminate.
  apply R_opponent in Eopp. apply IH in Hrun.
  eapply R_trans; [exact Eeng|]. eapply R_trans; [exact Eopp | exact Hrun].
Qed.

Lemma black_loop_keeps (fuel : nat) :
  forall g w g' w', black_loop fuel g w = Ok (g', w') -> R g g'.
Proof.
  induction fuel as [|fuel IH]; intros g w g' w' Hrun; [discriminate|].
  rewrite black_loop_step in Hrun.
  destruct (loop_condition g); [|injection Hrun as <- _; apply R_refl].
  unfold io_bind in Hrun.
  destruct (opponent_move g w) as [[g1 w1]| | |] eqn:Eopp; try discriminate.
  apply R_opponent in Eopp.
  destruct (_ || _); [injection Hrun as <- _; exact Eopp|].
  destruct (engine_turn g1 w1) as [[[continue g2] w2]| | |] eqn:Eeng;
    try discriminate.
  apply R_engine in Eeng. cbn [fst snd] in Hrun.
  destruct (negb continue).
  - injection Hrun as <- _. eapply R_trans; [exact Eopp | exact Eeng].
  - apply IH in Hrun.
    eapply R_trans; [exact Eopp|]. eapply R_trans; [exact Eeng | exact Hrun].
Qed.

Lemma play_keeps (player_is_white : bool) (fuel : nat)
  (g : Game Board Stockfish) (w : World) :
  match play player_is_white fuel g w with
  | Ok ((g', _), _) => R g g'
  | _ => True
  end.
Proof.
  unfold play, io_bind.
  destruct player_is_white.
  - destruct (white_loop fuel g w) as [[g' w']| | |] eqn:Erun; try exact I.
    cbn. eapply white_loop_keeps. exact Erun.
  - destruct (black_loop fuel g w) as [[g' w']| | |] eqn:Erun; try exact I.
    cbn. eapply black_loop_keeps. exact Erun.
Qed.

End LoopInvariant.

Lemma ticks_total (readings : list Q) (c : Clock) :
  let c' := fold_left (fun c t => snd (update_clock false t c)) readings c in
  engine_time_remaining c' + opponent_time_remaining c' + last_move_time c' ==
  engine_time_remaining c + opponent_time_remaining c + last_move_time c.
Proof.
  cbn zeta. revert c. induction readings as [|t rest IH]; intro c; [reflexivity|].
  cbn [fold_left]. rewrite IH. apply (tick_total false).
Qed.

Section WholeGame.

Context {Board : Type} `{chess.Rules Board}.
Context {Stockfish : Type} `{Engine Stockfish}.

(** X18: over a whole game, whatever is played, typed and read from the
    wall clock, the two counters and the time stamp keep their sum: the
    time taken off the counters is the time between the first time stamp
    and the last. *)
Theorem game_clock_total (player_is_white : bool) (fuel : nat)
  (g : Game Board Stockfish) (w : World) :
  match play player_is_white fuel g w with
  | Ok ((g', _), _) =>
      engine_time_remaining (clock g') + opponent_time_remaining (clock g')
      + last_move_time (clock g') ==
      engine_time_remaining (clock g) + opponent_time_remaining (clock g)
      + last_move_time (clock g)
  | _ => True
  end.
Proof.
  apply (play_keeps (fun g g' =>
    engine_time_remaining (clock g') + opponent_time_remaining (clock g')
    + last_move_time (clock g') ==
    engine_time_remaining (clock g) + opponent_time_remaining (clock g)
    + last_move_time (clock g))).
  - intro g0. reflexivity.
  - intros g1 g2 g3 H12 H23. rewrite H23. exact H12.
  - intros g0 w0 continue g' w' Hrun.
    pose proof (engine_turn_effect g0 w0) as Heff. rewrite Hrun in Heff.
    destruct Heff as [_ Heff]. destruct continue.
    + destruct Heff as (reading & _ & _ & -> & _). apply (tick_total true).
    + destruct Heff as (_ & -> & _). reflexivity.
  - intros g0 w0 g' w' Hrun.
    pose proof (opponent_move_effect g0 w0) as Heff. rewrite Hrun in Heff.
    destruct Heff as (_ & readings & _ & -> & _). apply ticks_total.
Qed.

(** X19: over a whole game started with a momentum of at most 1.0,
    momentum never ends lower than it started and never above 1.0. *)
Theorem game_momentum (player_is_white : bool) (fuel : nat)
  (g : Game Board Stockfish) (w : World)
  (Hm : flow_momentum (style g) <= 1) :
  match play player_is_white fuel g w with
  | Ok ((g', _), _) =>
      flow_momentum (style g) <= flow_momentum (style g') /\
      flow_momentum (style g') <= 1
  | _ => True
  end.
Proof.
  pose proof (play_keeps (fun g g' =>
    flow_momentum (style g) <= 1 ->
    flow_momentum (style g) <= flow_momentum (style g') /\
    flow_momentum (style g') <= 1)) as Hkeep.
  assert (Hupdate : forall (b : Board) m t s,
    flow_momentum s <= 1 ->
    flow_momentum s <= flow_momentum (update_liquid_momentum b m t s) /\
    flow_momentum (update_liquid_momentum b m t s) <= 1).
  { intros b m t s Hs. cbn [update_liquid_momentum flow_momentum]. split.
    - apply min_glb; lra.
    - eapply Qle_trans; [apply min_le_l | lra]. }
  specialize (Hkeep
    ltac:(intros; split; [apply Qle_refl | assumption])
    ltac:(intros g1 g2 g3 H12 H23 H1; destruct (H12 H1) as [Ha Hb];
          destruct (H23 Hb) as [Hc Hd]; split; [lra | exact Hd])).
  assert (Hengine : forall g0 w0 continue g' w',
    engine_turn g0 w0 = Ok ((continue, g'), w') ->
    flow_momentum (style g0) <= 1 ->
    flow_momentum (style g0) <= flow_momentum (style g') /\
    flow_momentum (style g') <= 1).
  { intros g0 w0 continue g' w' Hrun Hs.
    pose proof (engine_turn_effect g0 w0) as Heff. rewrite Hrun in Heff.
    destruct Heff as [_ Heff]. destruct continue.
    - destruct Heff as (_ & m & t & _ & ->). apply Hupdate. exact Hs.
    - destruct Heff as (_ & _ & ->). split; [apply Qle_refl | exact Hs]. }
  assert (Hopponent : forall g0 w0 g' w',
    opponent_move g0 w0 = Ok (g', w') ->
    flow_momentum (style g0) <= 1 ->
    flow_momentum (style g0) <= flow_momentum (style g') /\
    flow_momentum (style g') <= 1).
  { intros g0 w0 g' w' Hrun Hs.
    pose proof (opponent_move_effect g0 w0) as Heff. rewrite Hrun in Heff.
    destruct Heff as (_ & _ & m & _ & ->). apply Hupdate. exact Hs. }
  specialize (Hkeep Hengine Hopponent player_is_white fuel g w).
  destruct (play player_is_white fuel g w) as [[[g' message] w']| | |];
    try exact I.
  apply Hkeep. exact Hm.
Qed.

(** X20: a game-over message names a checkmate only when both counters
    are positive; the engine's time forfeit comes first, the opponent's
    second, and the crushing wording needs a pressure above 0.7. *)
Theorem game_over_message_cases (g : Game Board Stockfish) :
  (game_over_message g = RanOutOfTime <-> engine_time_remaining (clock g) <= 0) /\
  (game_over_message g = OpponentRanOutOfTime <->
     0 < engine_time_remaining (clock g) /\ opponent_time_remaining (clock g) <= 0) /\
  (game_over_message g = CrushingTideCheckmate \/
   game_over_message g = FlowingCheckmate <->
     0 < engine_time_remaining (clock g) /\
     0 < opponent_time_remaining (clock g) /\
     chess.is_checkmate (board g) = true) /\
  (game_over_message g = CrushingTideCheckmate -> 0.7 < pressure (style g)).
Proof.
  unfold game_over_message.
  destruct (engine_time_remaining (clock g) <=? 0) eqn:Ee;
    [apply leb_true in Ee | apply leb_false in Ee].
  { repeat split; intros; try discriminate; try lra; try tauto.
    all: match goal with
         | Hx : _ \/ _ |- _ => destruct Hx; discriminate
         | Hx : _ /\ _ |- _ => destruct Hx; lra
         end. }
  destruct (opponent_time_remaining (clock g) <=? 0) eqn:Eo;
    [apply leb_true in Eo | apply leb_false in Eo].
  { repeat split; intros; try discriminate; try lra; try tauto.
    all: match goal with
         | Hx : _ \/ _ |- _ => destruct Hx; discriminate
         | Hx : _ /\ _ /\ _ |- _ => destruct Hx as (? & ? & ?); lra
         end. }
  destruct (chess.is_checkmate (board g)) eqn:Emate.
  - destruct (0.7 <? pressure (style g)) eqn:Ep;
      [apply ltb_true in Ep | apply ltb_false in Ep].
    + repeat split; intros; try discriminate; try lra; try tauto.
      all: match goal with Hx : _ /\ _ |- _ => destruct Hx; lra end.
    + repeat split; intros; try discriminate; try lra; try tauto.
      all: match goal with Hx : _ /\ _ |- _ => destruct Hx; lra end.
  - assert (Hrest :
      forall m : Message,
        m = (if chess.is_stalemate (board g) then StillWaters
             else if chess.is_insufficient_material (board g) then Evaporated
             else if chess.is_fifty_moves (board g) then FlowStagnated
             else GameEnded) ->
        m <> RanOutOfTime /\ m <> OpponentRanOutOfTime /\
        m <> CrushingTideCheckmate /\ m <> FlowingCheckmate).
    { intros m ->.
      destruct (chess.is_stalemate (board g)),
        (chess.is_insufficient_material (board g)),
        (chess.is_fifty_moves (board g)); repeat split; discriminate. }
    destruct (Hrest _ eq_refl) as (H1 & H2 & H3 & H4).
    repeat split; intros; try lra; try contradiction; try tauto.
    all: match goal with
         | Hx : _ /\ _ /\ _ |- _ => destruct Hx as (? & ? & ?); discriminate
         | Hx : _ /\ _ |- _ => destruct Hx; lra
         | Hx : _ \/ _ |- _ => destruct Hx; contradiction
         end.
Qed.

End WholeGame.

Section EngineBlock.

Context {Board : Type} `{chess.Rules Board}.
Context {Stockfish : Type} `{Engine Stockfish}.

Lemma engine_turn_sleep_refused (g : Game Board Stockfish) (w : World)
  (best_move : string) (sf' : Stockfish) (g1 : Rng) :
  engine_time_remaining (clock g) < 0 ->
  liquid_style_move_selection (board g) (sf g)
    (engine_time_remaining (clock g)) (style g) (rng w) =
    Some ((Some best_move, sf'), g1) ->
  best_move <> EmptyString ->
  engine_turn g w = Crashed.
Proof.
  intros Hneg Hsel Hmove.
  unfold engine_turn, io_bind, rand. rewrite Hsel. cbn [fst snd].
  apply String.eqb_neq in Hmove. rewrite Hmove.
  cbn [rng now stdin board clock style with_sf].
  destruct (adaptive_thinking_time_base (board g)
              (engine_time_remaining (clock g)) (pressure (style g)) g1)
    as (base & g2 & -> & _).
  unfold sleep.
  assert (E : (Py.min (Py.max 0.3 base) (engine_time_remaining (clock g) * 0.1)
               <? 0) = true).
  { apply ltb_true. eapply Qle_lt_trans; [apply min_le_r | lra]. }
  rewrite E. reflexivity.
Qed.

(** X21: when the engine block starts with a negative remaining time
    and a move to play, the thinking time is negative and the process
    dies in [time.sleep]: no move is made and no message is printed. In
    the black branch this is what follows an opponent move that leaves the
    engine's counter below 0 while the game goes on. *)
Theorem black_iteration_negative_time (fuel : nat) (g g1 : Game Board Stockfish)
  (w w1 : World) (best_move : string) (sf' : Stockfish) (g2 : Rng)
  (Hcond : loop_condition g = true)
  (Hopp : opponent_move g w = Ok (g1, w1))
  (Hneg : engine_time_remaining (clock g1) < 0)
  (Hover : chess.is_game_over (board g1) = false)
  (Htime : 0 < opponent_time_remaining (clock g1))
  (Hsel : liquid_style_move_selection (board g1) (sf g1)
            (engine_time_remaining (clock g1)) (style g1) (rng w1) =
            Some ((Some best_move, sf'), g2))
  (Hmove : best_move <> EmptyString) :
  engine_turn g1 w1 = Crashed /\
  play false (S fuel) g w = Crashed.
Proof.
  pose proof (engine_turn_sleep_refused g1 w1 best_move sf' g2 Hneg Hsel Hmove)
    as Hcrash.
  split; [exact Hcrash|].
  unfold play. rewrite black_loop_step, Hcond.
  unfold io_bind. rewrite Hopp, Hover.
  apply leb_false in Htime. rewrite Htime. cbn [orb].
  rewrite Hcrash. reflexivity.
Qed.

(** X22: when the engine offers no candidate at the engine's turn, the
    white branch stops at once: one random word is drawn for the skill
    level, the board, the clock and the style are as before, and the
    message is the one their state gives. *)
Theorem no_candidates_ends_game (fuel : nat) (g : Game Board Stockfish) (w : World)
  (Hcond : loop_condition g = true)
  (Hnone : forall k n, get_top_moves (set_skill_level (sf g) k) n = []) :
  exists skill,
    (16 <= skill <= 20)%Z /\
    play true (S fuel) g w =
      Ok ((with_sf g (set_skill_level (sf g) skill), game_over_message g),
          {| rng := fun k => rng w (S k); now := now w; stdin := stdin w |}).
Proof.
  assert (Hsel : exists skill,
    (16 <= skill <= 20)%Z /\
    liquid_style_move_selection (board g) (sf g)
      (engine_time_remaining (clock g)) (style g) (rng w) =
      Some ((None, set_skill_level (sf g) skill), fun k => rng w (S k))).
  { unfold liquid_style_move_selection.
    set (tp := get_time_pressure _ _).
    assert (Hskill : exists skill,
      (if 0.7 <? tp then random.randint 16 18 else random.randint 18 20) (rng w) =
        Some (skill, fun i => rng w (S i)) /\ (16 <= skill <= 20)%Z).
    { destruct (0.7 <? tp).
      - destruct (randint_run 16 18 (rng w)) as (k & Hk & Hr); [lia|].
        exists k. split; [exact Hk | lia].
      - destruct (randint_run 18 20 (rng w)) as (k & Hk & Hr); [lia|].
        exists k. split; [exact Hk | lia]. }
    destruct Hskill as (skill & Hdraw & Hrange).
    exists skill. split; [exact Hrange|].
    cbn zeta. unfold bind. rewrite Hdraw, Hnone. reflexivity. }
  destruct Hsel as (skill & Hrange & Hsel).
  exists skill. split; [exact Hrange|].
  unfold play. rewrite white_loop_step, Hcond.
  unfold io_bind, engine_turn, io_bind, rand. rewrite Hsel. reflexivity.
Qed.

End EngineBlock.

(** ** Display *)

Lemma Qfloor_unique (x : Q) (z : Z) :
  inject_Z z <= x -> x < inject_Z (z + 1) -> Qfloor x = z.
Proof.
  intros Hlo Hhi.
  pose proof (Qfloor_le x) as Hfl. pose proof (Qlt_floor x) as Hfu.
  assert (H1 : (z < Qfloor x + 1)%Z).
  { rewrite Zlt_Qlt. eapply Qle_lt_trans; [exact Hlo | exact Hfu]. }
  assert (H2 : (Qfloor x < z + 1)%Z).
  { rewrite Zlt_Qlt. eapply Qle_lt_trans; [exact Hfl | exact Hhi]. }
  lia.
Qed.

Lemma int_of_integer (z : Z) : display.int (inject_Z z) = z.
Proof.
  unfold display.int. destruct (inject_Z z <? 0).
  - rewrite <- inject_Z_opp, Qfloor_Z. lia.
  - apply Qfloor_Z.
Qed.

Lemma minutes_seconds (x : Q) :
  0 <= x ->
  exists rest,
    display.modulo x 60 = Some rest /\
    let minutes := display.int (display.floordiv x 60) in
    let seconds := display.int rest in
    (60 * minutes + seconds = Qfloor x)%Z /\ (0 <= seconds <= 59)%Z /\
    (0 <= minutes)%Z.
Proof.
  intro Hx0. unfold display.modulo.
  assert (E : (x <? 0) = false) by (apply ltb_false; exact Hx0).
  rewrite E. eexists. split; [reflexivity|].
  cbn zeta. unfold display.floordiv.
  rewrite int_of_integer.
  set (q := Qfloor (x / 60)).
  assert (Hq : inject_Z q <= x / 60 /\ x / 60 < inject_Z (q + 1)).
  { split; [apply Qfloor_le | apply Qlt_floor]. }
  destruct Hq as [Hq0 Hq1]. rewrite inject_Z_plus in Hq1.
  change (inject_Z 1) with 1 in Hq1.
  assert (Hx : x == x / 60 * 60) by (field).
  assert (Hlo : 60 * inject_Z q <= x) by lra.
  assert (Hhi : x < 60 * inject_Z q + 60) by lra.
  assert (Hqpos : (0 <= q)%Z).
  { unfold q. change 0%Z with (Qfloor 0). apply Qfloor_resp_le.
    apply Qle_shift_div_l; lra. }
  set (r := x - 60 * inject_Z q) in *.
  assert (Hr0 : 0 <= r) by (unfold r; lra).
  assert (Hr1 : r < 60) by (unfold r; lra).
  assert (Hint : display.int r = Qfloor r).
  { unfold display.int. apply ltb_false in Hr0. rewrite Hr0. reflexivity. }
  rewrite Hint.
  assert (Hfloor : Qfloor x = (Qfloor r + 60 * q)%Z).
  { apply Qfloor_unique.
    - rewrite inject_Z_plus, inject_Z_mult. change (inject_Z 60) with 60.
      pose proof (Qfloor_le r) as Hfl. unfold r in *. lra.
    - rewrite !inject_Z_plus, inject_Z_mult. change (inject_Z 60) with 60.
      change (inject_Z 1) with 1.
      pose proof (Qlt_floor r) as Hfu. rewrite inject_Z_plus in Hfu.
      change (inject_Z 1) with 1 in Hfu. unfold r in *. lra. }
  assert (Hr_lo : (0 <= Qfloor r)%Z).
  { change 0%Z with (Qfloor 0). apply Qfloor_resp_le. exact Hr0. }
  assert (Hr_hi : (Qfloor r < 60)%Z).
  { rewrite Zlt_Qlt. eapply Qle_lt_trans; [apply Qfloor_le|].
    change (inject_Z 60) with 60. exact Hr1. }
  lia.
Qed.

(** X23: for counters that are not negative, the minutes and seconds
    shown are the floor of the counter split by 60: 60 * minutes + seconds
    is the floor, the seconds are from 0 to 59 and the minutes are not
    negative. *)
Theorem display_time_fields_split (c : Clock)
  (He : 0 <= engine_time_remaining c) (Ho : 0 <= opponent_time_remaining c) :
  exists engine_min engine_sec opp_min opp_sec,
    display_time_fields c =
      Some ((engine_min, engine_sec), (opp_min, opp_sec)) /\
    (60 * engine_min + engine_sec = Qfloor (engine_time_remaining c))%Z /\
    (0 <= engine_sec <= 59)%Z /\ (0 <= engine_min)%Z /\
    (60 * opp_min + opp_sec = Qfloor (opponent_time_remaining c))%Z /\
    (0 <= opp_sec <= 59)%Z /\ (0 <= opp_min)%Z.
Proof.
  unfold display_time_fields.
  destruct (minutes_seconds (engine_time_remaining c) He)
    as (er & -> & Hsum_e & Hsec_e & Hmin_e).
  destruct (minutes_seconds (opponent_time_remaining c) Ho)
    as (opr & -> & Hsum_o & Hsec_o & Hmin_o).
  eexists. eexists. eexists. eexists. split; [reflexivity|].
  cbn zeta in Hsum_e, Hsec_e, Hmin_e, Hsum_o, Hsec_o, Hmin_o.
  repeat split; try assumption; lia.
Qed.

Lemma display_time_fields_split_witness :
  let c := {| engine_time_remaining := 595.5;
              opponent_time_remaining := 20;
              last_move_time := 4.5 |} in
  exists engine_min engine_sec opp_min opp_sec,
    display_time_fields c =
      Some ((engine_min, engine_sec), (opp_min, opp_sec)) /\
    (60 * engine_min + engine_sec = Qfloor (engine_time_remaining c))%Z /\
    (0 <= engine_sec <= 59)%Z /\ (0 <= engine_min)%Z /\
    (60 * opp_min + opp_sec = Qfloor (opponent_time_remaining c))%Z /\
    (0 <= opp_sec <= 59)%Z /\ (0 <= opp_min)%Z.
Proof.
  intro c. apply (display_time_fields_split c); simpl; lra.
Defined.

(** The format with two digits gives two characters for every
    number from 0 to 99, so the seconds always take two. *)
Theorem format_02d_width (n : Z) (Hn : (0 <= n <= 99)%Z) :
  String.length (display.format_02d n) = 2%nat.
Proof.
  assert (Hall : forallb
            (fun k => String.length (display.format_02d (Z.of_nat k)) =? 2)%nat
            (seq 0 100) = true) by (vm_compute; reflexivity).
  rewrite forallb_forall in Hall.
  specialize (Hall (Z.to_nat n)).
  rewrite Z2Nat.id in Hall by lia.
  apply Nat.eqb_eq. apply Hall. apply in_seq. lia.
Qed.

Lemma format_02d_width_witness : String.length (display.format_02d 7) = 2%nat.
Proof. apply (format_02d_width 7). lia. Defined.

Section BoardDisplay.

Context {Board : Type} `{chess.Rules Board}.

(** X24: the rows of the board display: eight rows of eight cells, rank 8
    first for either colour; in White's view the files go from a to h, in
    Black's view from h to a (the rows are mirrored, not put upside
    down). *)
Theorem board_ranks_cells (board : Board) (player_is_white : bool)
  (r c : nat) (Hr : (r < 8)%nat) (Hc : (c < 8)%nat) :
  let cell sq :=
    match chess.piece_at board sq with
    | Some piece => display.symbol piece
    | None => "."%string
    end in
  List.length (board_ranks board player_is_white) = 8%nat /\
  List.length (nth r (board_ranks board player_is_white) []) = 8%nat /\
  nth c (nth r (board_ranks board player_is_white) []) EmptyString =
    cell (display.square
            (if player_is_white then Z.of_nat c else 7 - Z.of_nat c)
            (7 - Z.of_nat r)).
Proof.
  cbn zeta. split; [destruct player_is_white; reflexivity|].
  destruct player_is_white.
  - do 8 (destruct r as [|r];
          [split; [reflexivity|];
           do 8 (destruct c as [|c]; [reflexivity|]); lia|]).
    lia.
  - do 8 (destruct r as [|r];
          [split; [reflexivity|];
           do 8 (destruct c as [|c]; [reflexivity|]); lia|]).
    lia.
Qed.

(** X25: every piece is printed as a chess symbol, White's from the
    first six and Black's from the last six of the table, and the dot of
    an empty square is printed as it is. *)
Theorem unicode_pieces_complete (piece : chess.Piece) :
  (exists k, (k < 12)%nat /\
     display.get unicode_pieces (display.symbol piece) (display.symbol piece) =
       display.chess_symbol k /\
     (chess.color piece = true <-> (k < 6)%nat)) /\
  display.get unicode_pieces "." "." = "."%string.
Proof.
  split; [|reflexivity].
  destruct piece as [[] []].
  - exists 5%nat. repeat split; intros; (reflexivity || lia).
  - exists 11%nat. repeat split; intros; try reflexivity; try lia; discriminate.
  - exists 4%nat. repeat split; intros; (reflexivity || lia).
  - exists 10%nat. repeat split; intros; try reflexivity; try lia; discriminate.
  - exists 3%nat. repeat split; intros; (reflexivity || lia).
  - exists 9%nat. repeat split; intros; try reflexivity; try lia; discriminate.
  - exists 2%nat. repeat split; intros; (reflexivity || lia).
  - exists 8%nat. repeat split; intros; try reflexivity; try lia; discriminate.
  - exists 1%nat. repeat split; intros; (reflexivity || lia).
  - exists 7%nat. repeat split; intros; try reflexivity; try lia; discriminate.
  - exists 0%nat. repeat split; intros; (reflexivity || lia).
  - exists 6%nat. repeat split; intros; try reflexivity; try lia; discriminate.
Qed.

End BoardDisplay.

Lemma board_ranks_cells_witness :
  List.length (board_ranks Fixture.opening false) = 8%nat /\
  List.length (nth 7 (board_ranks Fixture.opening false) []) = 8%nat /\
  nth 3 (nth 7 (board_ranks Fixture.opening false) []) EmptyString =
    match chess.piece_at Fixture.opening (display.square (7 - Z.of_nat 3) (7 - Z.of_nat 7)) with
    | Some piece => display.symbol piece
    | None => "."%string
    end.
Proof. apply (board_ranks_cells Fixture.opening false 7 3); lia. Defined.

(** ** Runs on the small instance *)

Lemma opponent_skips_rejected_witness :
  let g := Fixture.game Fixture.opening (initial_clock 0) LIQUID_STYLE in
  let bad := ["hello"; "a1a2"; "e2e5"]%string in
  opponent_turn (bad ++ ["e2e4"]%string) (fun _ => 5) g =
    opponent_turn ["e2e4"]%string (fun _ => 5) g /\
  opponent_turn bad (fun _ => 5) g = Crashed /\
  (forall word, lower word = "quit"%string ->
                opponent_turn (bad ++ word :: ["e2e4"]%string) (fun _ => 5) g = Exited).
Proof.
  intros g bad.
  apply (opponent_skips_rejected bad ["e2e4"]%string (fun _ => 5) g).
  repeat constructor; discriminate.
Defined.

Lemma opponent_applies_first_legal_witness :
  let g := Fixture.game Fixture.opening (initial_clock 0) LIQUID_STYLE in
  opponent_turn (["hello"%string; "a1a2"%string]
                 ++ "e2e4"%string :: ["g1f3"%string]) (fun _ => 5) g =
    Ok ({| board := Fixture.opening;
           sf := make_moves_from_current_position (sf g) ["e2e4"%string];
           clock :=
             {| engine_time_remaining :=
                  engine_time_remaining (clock g) - (5 - last_move_time (clock g));
                opponent_time_remaining := opponent_time_remaining (clock g);
                last_move_time := 5 |};
           style := update_liquid_momentum Fixture.opening "e2e4" 0 (style g) |},
        (["g1f3"%string], fun _ => 5)).
Proof.
  intro g.
  apply (opponent_applies_first_legal ["hello"; "a1a2"]%string ["g1f3"%string]
           "e2e4" (Fixture.move 12 28) Fixture.opening (fun _ => 5) g).
  - repeat constructor; discriminate.
  - discriminate.
  - reflexivity.
  - reflexivity.
  - reflexivity.
Defined.

Lemma play_terminates_witness :
  let g := Fixture.game (Fixture.middlegame 30) (initial_clock 0) LIQUID_STYLE in
  let w := {| rng := Fixture.zeros; now := fun k => inject_Z (Z.of_nat k);
              stdin := ["a1a2"; "a1a3"]%string |} in
  play true 3 g w <> OutOfFuel /\
  play true (3 + 4) g w = play true 3 g w.
Proof.
  intros g w. apply (play_terminates true 3 4 g w). simpl. lia.
Defined.

Lemma game_momentum_witness :
  let g := Fixture.game (Fixture.middlegame 30) (initial_clock 0) LIQUID_STYLE in
  let w := {| rng := Fixture.zeros;
              now := fun k => match k with O => 4 | _ => 604 end;
              stdin := ["a1a2"%string] |} in
  exists g' message w',
    play true 2 g w = Ok ((g', message), w') /\
    flow_momentum (style g) <= flow_momentum (style g') /\
    flow_momentum (style g') <= 1.
Proof.
  intros g w.
  assert (Hrun : exists g' message w', play true 2 g w = Ok ((g', message), w')).
  { eexists. eexists. eexists. lazy. reflexivity. }
  destruct Hrun as (g' & message & w' & Hrun).
  exists g', message, w'. split; [exact Hrun|].
  assert (Hm : flow_momentum (style g) <= 1) by (simpl; lra).
  pose proof (game_momentum true 2 g w Hm) as Hkeep.
  rewrite Hrun in Hkeep. exact Hkeep.
Defined.

Lemma black_iteration_negative_time_witness :
  let g := Fixture.game (Fixture.middlegame 30) (initial_clock 0) LIQUID_STYLE in
  let w := {| rng := Fixture.zeros; now := fun _ => 700;
              stdin := ["a1a2"]%string |} in
  play false 1 g w = Crashed.
Proof.
  intros g w.
  refine (proj2 (black_iteration_negative_time 0 g _ w _ _ _ _ _ _ _ _ _ _ _)).
  - reflexivity.
  - lazy. reflexivity.
  - reflexivity.
  - reflexivity.
  - reflexivity.
  - lazy. reflexivity.
  - discriminate.
Defined.

Lemma no_candidates_ends_game_witness :
  let g : Game Fixture.Position (list MoveInfo) :=
    {| board := Fixture.middlegame 30; sf := [];
       clock := initial_clock 0; style := LIQUID_STYLE |} in
  let w := {| rng := Fixture.zeros; now := fun _ => 4; stdin := [] |} in
  exists skill,
    (16 <= skill <= 20)%Z /\
    play true 1 g w =
      Ok ((with_sf g (set_skill_level (sf g) skill), game_over_message g),
          {| rng := fun k => rng w (S k); now := now w; stdin := stdin w |}).
Proof.
  intros g w. apply (no_candidates_ends_game 0 g w).
  - reflexivity.
  - intros k n. destruct n; reflexivity.
Defined.

Lemma white_iteration_time_forfeit_witness :
  let g := Fixture.game (Fixture.middlegame 30) (initial_clock 0) LIQUID_STYLE in
  let w := {| rng := Fixture.zeros;
              now := fun k => match k with O => 4 | _ => 604 end;
              stdin := ["a1a2"]%string |} in
  exists g2 w2, play true 2 g w = Ok ((g2, RanOutOfTime), w2).
Proof.
  intros g w. eexists. eexists.
  eapply (white_iteration_time_forfeit 0 g _ _ w _ _).
  - reflexivity.
  - lazy. reflexivity.
  - reflexivity.
  - lazy. reflexivity.
  - reflexivity.
Defined.

Lemma black_iteration_time_forfeit_witness :
  let g := Fixture.game (Fixture.middlegame 30) (initial_clock 0) LIQUID_STYLE in
  let w := {| rng := Fixture.zeros; now := fun _ => 600;
              stdin := ["a1a2"]%string |} in
  match play false 2 g w with
  | Ok ((g', message), _) =>
      message = RanOutOfTime /\ engine_time_remaining (clock g') == 0
  | Crashed => True
  | Exited | OutOfFuel => False
  end.
Proof.
  intros g w.
  eapply (black_iteration_time_forfeit 0 g _ w _).
  - reflexivity.
  - lazy. reflexivity.
  - reflexivity.
Defined.

Lemma liquid_style_move_selection_blitz_witness :
  exists skill top_n,
    (16 <= skill <= 20)%Z /\ In top_n [3; 4; 6]%nat /\
    let sf' := set_skill_level Fixture.candidates skill in
    match get_top_moves sf' top_n with
    | [] =>
        liquid_style_move_selection (Fixture.middlegame 30) Fixture.candidates 20
          LIQUID_STYLE Fixture.zeros =
          Some ((None, sf'), fun k => Fixture.zeros (S k))
    | top :: rest =>
        exists u,
          random.random (fun i => Fixture.zeros (S i)) =
            Some (u, fun k => Fixture.zeros (S (S k))) /\
          0 <= u /\ u < 1 /\
          liquid_style_move_selection (Fixture.middlegame 30) Fixture.candidates 20
            LIQUID_STYLE Fixture.zeros =
            Some ((Some (Move (if u <? 0.8 then top else nth 0 rest top)), sf'),
                  fun k => Fixture.zeros (S (S k)))
    end.
Proof.
  apply (liquid_style_move_selection_blitz (Fixture.middlegame 30)
           Fixture.candidates 20 LIQUID_STYLE Fixture.zeros).
  lra.
Defined.
